(** * CVFMS: privileged-account provisioning and access-code gating

    A shallow embedding of the registration and roster components of the
    front end:

    - [UserRegistration]  ([withTimeout], [saveUserProfile], [handleSubmit],
      [handleGoogleSignup]);
    - [AdminRegistration] ([fetchAdminCode], [handleSubmit],
      [setupAdminProfile], [handleGoogleRegister]);
    - [AdminManagement]   ([fetchData], [openModal], [closeModal],
      [handleExecute]).

    The identity provider and the document store are external services.
    They are modelled by a [World] (accounts, session, documents, clock)
    and by an [Env] that fixes how each service answers during one run of
    a handler: in time, with a failure, or never.  Handlers are written in
    a small monad with state, exceptions, divergence (a promise that never
    settles) and an output trace of the requests and UI callbacks issued. *)

From Stdlib Require Import NArith Lia.
From stdpp Require Import base gmap strings list fin_maps.

Local Open Scope string_scope.
Local Open Scope list_scope.

(** ** JavaScript values used by the components *)

(** Strings are sequences of code units; [length] counts them. *)
Definition truthy (s : option string) : bool :=
  match s with
  | Some s => bool_decide (s ≠ "")
  | None => false
  end.

(** [a || b] on a possibly-undefined string and a string default. *)
Definition or_else (a : option string) (b : string) : string :=
  match a with
  | Some s => if bool_decide (s = "") then b else s
  | None => b
  end.

Record JsError := { code : string; message : string }.

(** ** [Date.prototype.toISOString] on epoch milliseconds *)

Module Iso.
Local Open Scope N_scope.

Definition digit (d : N) : string :=
  String (Ascii.ascii_of_N (48 + d mod 10)) EmptyString.

Fixpoint pad (width : nat) (n : N) : string :=
  match width with
  | O => ""
  | S w => pad w (n / 10) +:+ digit n
  end.

(** Civil date of a day count since 1970-01-01 (proleptic Gregorian). *)
Definition civil (days : N) : N * N * N :=
  let z := days + 719468 in
  let era := z / 146097 in
  let doe := z mod 146097 in
  let yoe := (doe - doe / 1460 + doe / 36524 - doe / 146096) / 365 in
  let doy := doe - (365 * yoe + yoe / 4 - yoe / 100) in
  let mp := (5 * doy + 2) / 153 in
  let d := doy - (153 * mp + 2) / 5 + 1 in
  let m := if mp <? 10 then mp + 3 else mp - 9 in
  let y := yoe + era * 400 + (if m <=? 2 then 1 else 0) in
  (y, m, d).

Definition toISOString (ms : N) : string :=
  let '(y, m, d) := civil (ms / 86400000) in
  let r := ms mod 86400000 in
  pad 4 y +:+ "-" +:+ pad 2 m +:+ "-" +:+ pad 2 d +:+ "T"
    +:+ pad 2 (r / 3600000) +:+ ":" +:+ pad 2 (r / 60000 mod 60) +:+ ":"
    +:+ pad 2 (r / 1000 mod 60) +:+ "." +:+ pad 3 (r mod 1000) +:+ "Z".
End Iso.

(** ** The external services *)

(** A Firestore document: field name to value.  Every field the components
    read or write holds a string. *)
Abbreviation Doc := (gmap string string).

(** [doc(db, collection, id)] *)
Abbreviation DocRef := (string * string)%type.

(** An object literal as handed to [setDoc]: a field whose expression
    evaluated to [undefined] is listed with [None]. *)
Abbreviation ObjLit := (list (string * option string)).

(** Modelled from the spec: the store handle [db] exported by the project's
    firebase module, which is not part of the sources at hand.  Following
    the merge-write of sections 4.2 and 6 (fields not specified are left
    untouched, specified fields overwrite), a field that is [undefined] in
    the literal counts as not specified. *)
Fixpoint specified (o : ObjLit) : Doc :=
  match o with
  | [] => ∅
  | (k, Some v) :: o' => <[k := v]> (specified o')
  | (_, None) :: o' => specified o'
  end.

Definition mergeWrite (fields : Doc) (old : option Doc) : Doc :=
  fields ∪ default ∅ old.

(** The user object the identity provider hands back. *)
Module Auth.
Record User := { uid : string; email : string; displayName : option string }.
End Auth.
Abbreviation User := Auth.User.

(** An identity held by the provider.  Federated identities carry no
    password. *)
Record Account := {
  acc_user : User;
  acc_password : option string
}.

Record World := {
  accounts : list Account;
  currentUser : option User;          (* auth.currentUser *)
  db : gmap DocRef Doc;
  clock : N                           (* epoch milliseconds *)
}.

Definition set_accounts (f : list Account -> list Account) (w : World) : World :=
  {| accounts := f (accounts w); currentUser := currentUser w; db := db w;
     clock := clock w |}.
Definition set_currentUser (u : option User) (w : World) : World :=
  {| accounts := accounts w; currentUser := u; db := db w;
     clock := clock w |}.
Definition set_db (f : gmap DocRef Doc -> gmap DocRef Doc) (w : World) : World :=
  {| accounts := accounts w; currentUser := currentUser w; db := f (db w);
     clock := clock w |}.
Definition tick (t : N) (w : World) : World :=
  {| accounts := accounts w; currentUser := currentUser w; db := db w;
     clock := (clock w + t)%N |}.

Inductive Service :=
| CreateUser | SignIn | Popup | SignOut | GetDoc | GetDocs | SetDoc | UpdateDoc.

(** How a service answers a request: after [t] ms, with an infrastructure
    failure (network, quota, permissions) after [t] ms, or never. *)
Inductive Response :=
| Reply (t : N)
| Fault (reason : string) (t : N)
| Silent.

(** The handlers tell failures apart only by comparing the code with
    ['auth/email-already-in-use'], which the provider reports from its own
    state; every other failure of a service family stands under one code. *)
Definition failure_code (s : Service) : string :=
  match s with
  | CreateUser | SignIn | Popup | SignOut => "auth/network-request-failed"
  | GetDoc | GetDocs | SetDoc | UpdateDoc => "unavailable"
  end.

Record Env := {
  respond : Service -> Response;
  freshUid : string;       (* the id the provider issues to a new identity *)
  googleUser : User        (* the identity picked in the federated popup *)
}.

(** What a run of a handler lets the outside observe. *)
Inductive Request :=
| ReqCreateUser (email : string)
| ReqSignIn (email : string)
| ReqPopup
| ReqSignOut
| ReqGetDoc (r : DocRef)
| ReqGetDocs (collection field value : string)
| ReqSetDoc (r : DocRef) (fields : Doc)
| ReqUpdateDoc (r : DocRef) (fields : Doc).

Inductive Event :=
| Remote (r : Request)
| Alert (msg : string)
| OnRegister.

(** ** Promises and the handler monad *)

(** A settled promise: when, with what, and what the service did. *)
Record Settled (A : Type) := {
  latency : N;
  value : JsError + A;
  commit : World -> World
}.
Arguments latency {A}. Arguments value {A}. Arguments commit {A}.

(** [None] is a promise that never settles. *)
Definition Promise (A : Type) := option (Settled A).

Inductive Completion (A : Type) :=
| Return (a : A)
| Throw (e : JsError)
| Diverge.
Arguments Return {A}. Arguments Throw {A}. Arguments Diverge {A}.

(** Handlers of a component with local state [C]. *)
Definition M (C A : Type) : Type :=
  World * C -> Completion A * (World * C) * list Event.

Definition ret {C A} (a : A) : M C A := fun s => (Return a, s, []).

Definition bind {C A B} (m : M C A) (k : A -> M C B) : M C B :=
  fun s =>
    match m s with
    | (Return a, s1, t1) =>
        let '(r, s2, t2) := k a s1 in (r, s2, t1 ++ t2)
    | (Throw e, s1, t1) => (Throw e, s1, t1)
    | (Diverge, s1, t1) => (Diverge, s1, t1)
    end.

Declare Scope js_scope.
Delimit Scope js_scope with js.
Notation "x <- m ;; k" := (bind m (fun x => k))
  (at level 100, m at next level, right associativity) : js_scope.
Notation "m ;; k" := (bind m (fun _ => k))
  (at level 100, right associativity) : js_scope.
Local Open Scope js_scope.

Definition throw {C A} (e : JsError) : M C A := fun s => (Throw e, s, []).
Definition emit {C} (e : Event) : M C unit := fun s => (Return tt, s, [e]).
Definition getWorld {C} : M C World := fun s => (Return (fst s), s, []).
Definition modWorld {C} (f : World -> World) : M C unit :=
  fun s => (Return tt, (f (fst s), snd s), []).
Definition getState {C} : M C C := fun s => (Return (snd s), s, []).
Definition modState {C} (f : C -> C) : M C unit :=
  fun s => (Return tt, (fst s, f (snd s)), []).

(** [try { body } catch (err) { handler err }] *)
Definition try_catch {C A} (body : M C A) (handler : JsError -> M C A) : M C A :=
  fun s =>
    match body s with
    | (Throw e, s1, t1) =>
        let '(r, s2, t2) := handler e s1 in (r, s2, t1 ++ t2)
    | other => other
    end.

(** [try { body } finally { final }]; a body that never settles never
    reaches the [finally] block. *)
Definition try_finally {C A} (body : M C A) (final : M C unit) : M C A :=
  fun s =>
    match body s with
    | (Diverge, s1, t1) => (Diverge, s1, t1)
    | (r, s1, t1) =>
        match final s1 with
        | (Return _, s2, t2) => (r, s2, t1 ++ t2)
        | (Throw e, s2, t2) => (Throw e, s2, t1 ++ t2)
        | (Diverge, s2, t2) => (Diverge, s2, t1 ++ t2)
        end
    end.

(** [await p] *)
Definition await {C A} (p : Promise A) : M C A :=
  match p with
  | None => fun s => (Diverge, s, [])
  | Some st =>
      modWorld (fun w => tick (latency st) (commit st w)) ;;
      match value st with
      | inl e => throw e
      | inr a => ret a
      end
  end.

(** Issue a request: the service's answer is fixed by the environment and
    by the world at that moment. *)
Definition answer {A} (env : Env) (s : Service) (served : JsError + A)
    (effect : World -> World) : Promise A :=
  match respond env s with
  | Reply t =>
      Some {| latency := t; value := served;
              commit := match served with inl _ => id | inr _ => effect end |}
  | Fault reason t =>
      Some {| latency := t;
              value := inl {| code := failure_code s; message := reason |};
              commit := id |}
  | Silent => None
  end.

Definition new_Date_toISOString {C} : M C string :=
  w <- getWorld ;; ret (Iso.toISOString (clock w)).

(** ** Service calls

    Each call issues its request (recorded in the trace) and returns the
    promise of the answer. *)

Section Services.
Context {C : Type} (env : Env).

Definition find_account (em : string) (l : list Account) : option Account :=
  List.find (fun a => bool_decide (Auth.email (acc_user a) = em)) l.

Definition find_uid (u : string) (l : list Account) : option Account :=
  List.find (fun a => bool_decide (Auth.uid (acc_user a) = u)) l.

Definition password_ok (a : Account) (pw : string) : bool :=
  match acc_password a with
  | Some p => bool_decide (p = pw)
  | None => false
  end.

Definition createUserWithEmailAndPassword (em pw : string) : M C (Promise User) :=
  emit (Remote (ReqCreateUser em)) ;;
  w <- getWorld ;;
  let u := {| Auth.uid := freshUid env; Auth.email := em;
             Auth.displayName := None |} in
  ret (answer env CreateUser
         match find_account em (accounts w) with
         | Some _ =>
             inl {| code := "auth/email-already-in-use";
                    message := "Firebase: Error (auth/email-already-in-use)." |}
         | None => inr u
         end
         (fun w =>
            set_currentUser (Some u)
              (set_accounts
                 (fun l => l ++ [{| acc_user := u; acc_password := Some pw |}]) w))).

Definition signInWithEmailAndPassword (em pw : string) : M C (Promise User) :=
  emit (Remote (ReqSignIn em)) ;;
  w <- getWorld ;;
  ret match find_account em (accounts w) with
      | Some a =>
          if password_ok a pw
          then answer env SignIn (inr (acc_user a))
                 (set_currentUser (Some (acc_user a)))
          else answer env SignIn
                 (inl {| code := "auth/wrong-password";
                         message := "Firebase: Error (auth/wrong-password)." |}) id
      | None =>
          answer env SignIn
            (inl {| code := "auth/user-not-found";
                    message := "Firebase: Error (auth/user-not-found)." |}) id
      end.

(** The popup signs the chosen identity in; the provider creates it on
    its first sign-in. *)
Definition signInWithPopup : M C (Promise User) :=
  emit (Remote ReqPopup) ;;
  let u := googleUser env in
  ret (answer env Popup (inr u)
         (fun w =>
            set_currentUser (Some u)
              (set_accounts
                 (fun l =>
                    match find_uid (Auth.uid u) l with
                    | Some _ => l
                    | None => l ++ [{| acc_user := u; acc_password := None |}]
                    end) w))).

Definition signOut : M C (Promise unit) :=
  emit (Remote ReqSignOut) ;;
  ret (answer env SignOut (inr tt) (set_currentUser None)).

(** The snapshot: [exists()] is [is_Some], [data()] the document. *)
Definition getDoc (r : DocRef) : M C (Promise (option Doc)) :=
  emit (Remote (ReqGetDoc r)) ;;
  w <- getWorld ;;
  ret (answer env GetDoc (inr (db w !! r)) id).

(** [setDoc(ref, data, { merge: true })] *)
Definition setDoc_merge (r : DocRef) (data : ObjLit) : M C (Promise unit) :=
  emit (Remote (ReqSetDoc r (specified data))) ;;
  ret (answer env SetDoc (inr tt)
         (set_db (fun d => <[r := mergeWrite (specified data) (d !! r)]> d))).

(** [updateDoc] fails on a document that does not exist. *)
Definition updateDoc (r : DocRef) (data : ObjLit) : M C (Promise unit) :=
  emit (Remote (ReqUpdateDoc r (specified data))) ;;
  w <- getWorld ;;
  ret (answer env UpdateDoc
         match db w !! r with
         | Some _ => inr tt
         | None => inl {| code := "not-found";
                          message := "No document to update" |}
         end
         (set_db (fun d => <[r := mergeWrite (specified data) (d !! r)]> d))).

(** [getDocs(query(collection(db, c), where(f, "==", v)))]: the ids and
    documents of the matches. *)
Definition getDocs_where (c f v : string) : M C (Promise (list (string * Doc))) :=
  emit (Remote (ReqGetDocs c f v)) ;;
  w <- getWorld ;;
  ret (answer env GetDocs
         (inr (omap (fun '(r, d) =>
                       if bool_decide (fst r = c) && bool_decide (d !! f = Some v)
                       then Some (snd r, d) else None)
                    (map_to_list (db w))))
         id).

(** [await] of a call made in place. *)
Definition awaiting {A} (m : M C (Promise A)) : M C A := p <- m ;; await p.
End Services.

(** [withTimeout(promise, ms)]: the promise raced against a timer.  A
    promise that has not settled before the timer fires loses the race, and
    the caller sees the timer's rejection after [ms].  [Promise.race] does
    not cancel the loser: a request the service answers is still carried
    out, so its effect is part of the state the caller goes on with (no
    handler here reads the store between a timeout and its return).  At
    [latency = ms] the two settle together; the effect is there either
    way.  A request that is never answered has no effect. *)
Definition withTimeout {A} (promise : Promise A) (ms : N) : Promise A :=
  let timeout (late : World -> World) :=
    {| latency := ms;
       value := inl {| code := ""; message := "Network timeout: Database is slow." |};
       commit := late |} in
  match promise with
  | Some st => if (latency st <? ms)%N then Some st else Some (timeout (commit st))
  | None => Some (timeout id)
  end.

(** ** Terminal states of a registration attempt (section 4.3) *)

Inductive Terminal :=
| Created
| Restored
| Denied
| IncorrectCredential
| Failed (reason : string)
| CodeMismatch
| PasswordMismatch
| WeakPassword
| NoOutcome            (* the handler returned without reporting anything *)
| Suspended            (* the handler waits on a promise that never settles *)
| Uncaught (e : JsError).

Fixpoint strip_prefix (p s : string) : option string :=
  match p, s with
  | EmptyString, _ => Some s
  | String a p', String b s' =>
      if Ascii.eqb a b then strip_prefix p' s' else None
  | String _ _, EmptyString => None
  end.

Definition is_OnRegister (e : Event) : bool :=
  match e with OnRegister => true | _ => false end.

Definition is_Alert (msg : string) (e : Event) : bool :=
  match e with Alert m => m =? msg | _ => false end.

Definition is_Remote (e : Event) : bool :=
  match e with Remote _ => true | _ => false end.

Definition is_write (e : Event) : bool :=
  match e with
  | Remote (ReqSetDoc _ _) | Remote (ReqUpdateDoc _ _) => true
  | _ => false
  end.

(** ** UserRegistration *)

Module UserRegistration.

Record FormData := {
  fullName : string;
  email : string;
  phone : string;
  password : string;
  confirmPassword : string
}.

Record Component := {
  formData : FormData;
  error : string;
  loading : bool
}.

Definition setError (msg : string) : M Component unit :=
  modState (fun c => {| formData := formData c; error := msg; loading := loading c |}).
Definition setLoading (b : bool) : M Component unit :=
  modState (fun c => {| formData := formData c; error := error c; loading := b |}).

Section Handlers.
Variable env : Env.

Definition saveUserProfile (user : User) (isGoogle : bool) : M Component unit :=
  c <- getState ;;
  now <- new_Date_toISOString ;;
  let userData : ObjLit :=
    [ ("uid", Some (Auth.uid user));
      ("email", Some (Auth.email user));
      ("name", Some (or_else (Some (fullName (formData c)))
                       (or_else (Auth.displayName user) "User")));
      ("phone", Some (or_else (Some (phone (formData c))) ""));
      ("role", Some "user");
      ("authProvider", Some (if isGoogle then "google" else "email"));
      ("createdAt", Some now) ] in
  try_catch
    (p <- setDoc_merge env ("users", Auth.uid user) userData ;;
     await (withTimeout p 5000))
    (fun err => ret tt).

Definition handleSubmit : M Component unit :=
  setError "" ;;
  c <- getState ;;
  let f := formData c in
  if bool_decide (password f ≠ confirmPassword f) then
    setError "Passwords do not match!"
  else if bool_decide (String.length (password f) < 6)%nat then
    setError "Password must be at least 6 characters long."
  else
    setLoading true ;;
    try_finally
      (try_catch
         (user <- awaiting
                    (createUserWithEmailAndPassword env (email f) (password f)) ;;
          saveUserProfile user false ;;
          emit (Alert "Registration successful! Please Log In.") ;;
          emit OnRegister)
         (fun err =>
            if bool_decide (code err = "auth/email-already-in-use") then
              setError "This email is already registered. Please Log In."
            else
              setError ("Error: " +:+ message err)))
      (setLoading false).

Definition handleGoogleSignup : M Component unit :=
  setError "" ;;
  setLoading true ;;
  try_finally
    (try_catch
       (user <- awaiting (signInWithPopup env) ;;
        saveUserProfile user true ;;
        emit (Alert "Google Registration successful!") ;;
        emit OnRegister)
       (fun err => setError ("Google sign-up failed: " +:+ message err)))
    (setLoading false).
End Handlers.

End UserRegistration.

(** ** AdminRegistration *)

Module AdminRegistration.

Record FormData := {
  email : string;
  password : string;
  confirmPassword : string;
  role : string;
  adminCode : string
}.

Record Component := {
  formData : FormData;
  error : string;
  loading : bool;
  systemAdminCode : option string;      (* [null] until fetched *)
  loadingCode : bool
}.

Definition setError (msg : string) : M Component unit :=
  modState (fun c =>
    {| formData := formData c; error := msg; loading := loading c;
       systemAdminCode := systemAdminCode c; loadingCode := loadingCode c |}).
Definition setLoading (b : bool) : M Component unit :=
  modState (fun c =>
    {| formData := formData c; error := error c; loading := b;
       systemAdminCode := systemAdminCode c; loadingCode := loadingCode c |}).
Definition setSystemAdminCode (k : string) : M Component unit :=
  modState (fun c =>
    {| formData := formData c; error := error c; loading := loading c;
       systemAdminCode := Some k; loadingCode := loadingCode c |}).
Definition setLoadingCode (b : bool) : M Component unit :=
  modState (fun c =>
    {| formData := formData c; error := error c; loading := loading c;
       systemAdminCode := systemAdminCode c; loadingCode := b |}).

(** [status === 'banned'] on a snapshot that exists. *)
Definition is_banned (userDoc : option Doc) : bool :=
  match userDoc with
  | Some d => bool_decide (d !! "status" = Some "banned")
  | None => false
  end.

(** [err?.message || 'Unknown error'] *)
Definition message_or_unknown (err : JsError) : string :=
  or_else (Some (message err)) "Unknown error".

Section Handlers.
Variable env : Env.

Definition fetchAdminCode : M Component unit :=
  try_finally
    (try_catch
       (docSnap <- awaiting (getDoc env ("settings", "admin_config")) ;;
        match docSnap with
        | Some d =>
            if truthy (d !! "registrationKey")
            then setSystemAdminCode (default "" (d !! "registrationKey"))
            else setSystemAdminCode "ADMIN2025"
        | None => setSystemAdminCode "ADMIN2025"
        end)
       (fun err => setSystemAdminCode "ADMIN2025"))
    (setLoadingCode false).

Definition setupAdminProfile (user : User) (isRestore : bool) : M Component unit :=
  now <- new_Date_toISOString ;;
  awaiting
    (setDoc_merge env ("users", Auth.uid user)
       [ ("uid", Some (Auth.uid user));
         ("email", Some (Auth.email user));
         ("role", Some "admin");
         ("status", Some "active");
         ("createdAt", if isRestore then None else Some now);
         ("restoredAt", if isRestore then Some now else None) ]).

Definition handleSubmit : M Component unit :=
  setError "" ;;
  c <- getState ;;
  let f := formData c in
  if loadingCode c then ret tt
  else if bool_decide (Some (adminCode f) ≠ systemAdminCode c) then
    setError "Invalid Admin Access Code."
  else if bool_decide (password f ≠ confirmPassword f) then
    setError "Passwords do not match."
  else if bool_decide (String.length (password f) < 6)%nat then
    setError "Password must be at least 6 characters."
  else
    setLoading true ;;
    try_finally
      (try_catch
         (user <- awaiting
                    (createUserWithEmailAndPassword env (email f) (password f)) ;;
          setupAdminProfile user false ;;
          emit (Alert "Admin registration successful!") ;;
          emit OnRegister)
         (fun err =>
            if bool_decide (code err = "auth/email-already-in-use") then
              try_catch
                (login <- awaiting
                            (signInWithEmailAndPassword env (email f) (password f)) ;;
                 userDoc <- awaiting (getDoc env ("users", Auth.uid login)) ;;
                 if is_banned userDoc then
                   awaiting (signOut env) ;;
                   setError "This account exists but has been BANNED." ;;
                   setLoading false
                 else
                   setupAdminProfile login true ;;
                   emit (Alert "Existing account found. Profile restored successfully!") ;;
                   emit OnRegister)
                (fun loginErr =>
                   setError "This email is already registered, but the password was incorrect. Please Log In.")
            else
              setError ("Failed to register. " +:+ message_or_unknown err)))
      (setLoading false).

Definition handleGoogleRegister : M Component unit :=
  setError "" ;;
  c <- getState ;;
  let f := formData c in
  if loadingCode c then ret tt
  else if bool_decide (Some (adminCode f) ≠ systemAdminCode c) then
    setError "Please enter the correct Admin Access Code above before connecting with Gmail."
  else
    setLoading true ;;
    try_finally
      (try_catch
         (user <- awaiting (signInWithPopup env) ;;
          userDoc <- awaiting (getDoc env ("users", Auth.uid user)) ;;
          if is_banned userDoc then
            awaiting (signOut env) ;;
            setError "ACCESS DENIED: This account has been banned." ;;
            setLoading false
          else
            setupAdminProfile user true ;;
            emit OnRegister)
         (fun err =>
            setError ("Google registration failed. " +:+ message_or_unknown err)))
      (setLoading false).
End Handlers.

(** The terminal state a run shows to its caller, read off the error
    banner, the alerts and the [onRegister] callback. *)
Definition terminal (out : Completion unit * (World * Component) * list Event)
    : Terminal :=
  let '(r, (_, c), evs) := out in
  match r with
  | Diverge => Suspended
  | Throw e => Uncaught e
  | Return _ =>
      if existsb is_OnRegister evs then
        if existsb (is_Alert "Admin registration successful!") evs
        then Created else Restored
      else if (error c =? "Invalid Admin Access Code.")
           || (error c =? "Please enter the correct Admin Access Code above before connecting with Gmail.")
      then CodeMismatch
      else if error c =? "Passwords do not match." then PasswordMismatch
      else if error c =? "Password must be at least 6 characters." then WeakPassword
      else if (error c =? "This account exists but has been BANNED.")
           || (error c =? "ACCESS DENIED: This account has been banned.")
      then Denied
      else if error c =? "This email is already registered, but the password was incorrect. Please Log In."
      then IncorrectCredential
      else match strip_prefix "Failed to register. " (error c),
                 strip_prefix "Google registration failed. " (error c) with
           | Some reason, _ | None, Some reason => Failed reason
           | None, None => NoOutcome
           end
  end.

End AdminRegistration.

(** ** AdminManagement *)

Module AdminManagement.

Inductive ActionType := ban | unban | update_reg_key.

Record Component := {
  admins : list Doc;
  globalRegKey : string;
  loading : bool;
  selectedAdmin : option Doc;
  actionType : option ActionType;
  newValueInput : string;
  errorMsg : string
}.

(** The component as first rendered. *)
Definition initial : Component :=
  {| admins := []; globalRegKey := "Loading..."; loading := true;
     selectedAdmin := None; actionType := None; newValueInput := "";
     errorMsg := "" |}.

Definition setAdmins (f : list Doc -> list Doc) : M Component unit :=
  modState (fun c =>
    {| admins := f (admins c); globalRegKey := globalRegKey c; loading := loading c;
       selectedAdmin := selectedAdmin c; actionType := actionType c;
       newValueInput := newValueInput c; errorMsg := errorMsg c |}).
Definition setGlobalRegKey (k : string) : M Component unit :=
  modState (fun c =>
    {| admins := admins c; globalRegKey := k; loading := loading c;
       selectedAdmin := selectedAdmin c; actionType := actionType c;
       newValueInput := newValueInput c; errorMsg := errorMsg c |}).
Definition setLoading (b : bool) : M Component unit :=
  modState (fun c =>
    {| admins := admins c; globalRegKey := globalRegKey c; loading := b;
       selectedAdmin := selectedAdmin c; actionType := actionType c;
       newValueInput := newValueInput c; errorMsg := errorMsg c |}).
Definition setErrorMsg (msg : string) : M Component unit :=
  modState (fun c =>
    {| admins := admins c; globalRegKey := globalRegKey c; loading := loading c;
       selectedAdmin := selectedAdmin c; actionType := actionType c;
       newValueInput := newValueInput c; errorMsg := msg |}).

Definition openModal (type : ActionType) (admin : option Doc) : M Component unit :=
  modState (fun c =>
    {| admins := admins c; globalRegKey := globalRegKey c; loading := loading c;
       selectedAdmin := admin; actionType := Some type;
       newValueInput := ""; errorMsg := "" |}).

Definition closeModal : M Component unit :=
  modState (fun c =>
    {| admins := admins c; globalRegKey := globalRegKey c; loading := loading c;
       selectedAdmin := None; actionType := None;
       newValueInput := newValueInput c; errorMsg := errorMsg c |}).

(** [selectedAdmin.id]; reading it off [null], or handing [undefined] to
    [doc], throws. *)
Definition selectedAdmin_id (c : Component) : M Component string :=
  match selectedAdmin c ≫= (.!! "id") with
  | Some i => ret i
  | None => throw {| code := ""; message := "TypeError" |}
  end.

(** [{ ...a, status: s }] for the row with the given id. *)
Definition mark (i s : string) (a : Doc) : Doc :=
  if bool_decide (a !! "id" = Some i) then <["status" := s]> a else a.

Section Handlers.
Variable env : Env.

Definition fetchData : M Component unit :=
  try_catch
    (snapshot <- awaiting (getDocs_where env "users" "role" "admin") ;;
     let adminList := map (fun '(i, d) => d ∪ {["id" := i]}) snapshot in
     setAdmins (fun _ => adminList) ;;
     configSnap <- awaiting (getDoc env ("settings", "admin_config")) ;;
     match configSnap with
     | Some d => setGlobalRegKey (or_else (d !! "registrationKey") "Not Set")
     | None => setGlobalRegKey "ADMIN2025"
     end ;;
     setLoading false)
    (fun err => setLoading false).

Definition handleExecute : M Component unit :=
  setErrorMsg "" ;;
  c <- getState ;;
  match actionType c with
  | Some update_reg_key =>
      if bool_decide (String.length (newValueInput c) < 5)%nat then
        setErrorMsg "Code is too short (min 5 chars)."
      else
        try_catch
          (awaiting (setDoc_merge env ("settings", "admin_config")
                       [("registrationKey", Some (newValueInput c))]) ;;
           setGlobalRegKey (newValueInput c) ;;
           closeModal ;;
           emit (Alert "Admin Access Code Updated Successfully!"))
          (fun e => setErrorMsg "Database Error: Could not update key.")
  | Some ban =>
      try_catch
        (i <- selectedAdmin_id c ;;
         awaiting (updateDoc env ("users", i) [("status", Some "banned")]) ;;
         setAdmins (map (mark i "banned")) ;;
         closeModal)
        (fun e => setErrorMsg "Database Error: Could not ban user.")
  | Some unban =>
      try_catch
        (i <- selectedAdmin_id c ;;
         awaiting (updateDoc env ("users", i) [("status", Some "active")]) ;;
         setAdmins (map (mark i "active")) ;;
         closeModal)
        (fun e => setErrorMsg "Database Error: Could not unban user.")
  | None => ret tt
  end.
End Handlers.

End AdminManagement.

(** ** Running a handler *)

Definition result {C A} (out : Completion A * (World * C) * list Event) : Completion A :=
  fst (fst out).
Definition world {C A} (out : Completion A * (World * C) * list Event) : World :=
  fst (snd (fst out)).
Definition component {C A} (out : Completion A * (World * C) * list Event) : C :=
  snd (snd (fst out)).
Definition trace {C A} (out : Completion A * (World * C) * list Event) : list Event :=
  snd out.

(** A field of a stored document; [None] when the document or the field
    is absent. *)
Definition field (w : World) (r : DocRef) (k : string) : option string :=
  db w !! r ≫= (.!! k).

(** The persistent state of the two services, the clock left aside. *)
Definition same_state (w w' : World) : Prop :=
  accounts w' = accounts w ∧ currentUser w' = currentUser w ∧ db w' = db w.

(** The configuration record holding the registration code. *)
Definition admin_config : DocRef := ("settings", "admin_config").

(** The profile stored for identity [u] is banned. *)
Definition banned_profile (w : World) (u : string) : Prop :=
  field w ("users", u) "status" = Some "banned".

(** The registration code has been fetched and the supplied one matches. *)
Definition code_accepted (c : AdminRegistration.Component) : Prop :=
  AdminRegistration.loadingCode c = false ∧
  Some (AdminRegistration.adminCode (AdminRegistration.formData c))
    = AdminRegistration.systemAdminCode c.

(** An admin registration form that passes every check of [handleSubmit]. *)
Definition valid_input (c : AdminRegistration.Component) : Prop :=
  code_accepted c ∧
  AdminRegistration.password (AdminRegistration.formData c)
    = AdminRegistration.confirmPassword (AdminRegistration.formData c) ∧
  (6 <= String.length (AdminRegistration.password (AdminRegistration.formData c)))%nat.

(** ** Scenarios *)

Module Scenario.

Definition alice : User :=
  {| Auth.uid := "uid-alice"; Auth.email := "alice@cvfms.lk";
     Auth.displayName := None |}.

Definition gina : User :=
  {| Auth.uid := "uid-gina"; Auth.email := "gina@gmail.com";
     Auth.displayName := Some "Gina" |}.

(** Every service answers after 10 ms. *)
Definition prompt : Env :=
  {| respond := fun _ => Reply 10; freshUid := "uid-alice"; googleUser := gina |}.

(** The document store never acknowledges a write. *)
Definition store_silent : Env :=
  {| respond := fun s => match s with SetDoc => Silent | _ => Reply 10 end;
     freshUid := "uid-alice"; googleUser := gina |}.

(** The document store rejects writes. *)
Definition store_down : Env :=
  {| respond := fun s =>
       match s with
       | SetDoc => Fault "offline" 10
       | _ => Reply 10
       end;
     freshUid := "uid-alice"; googleUser := gina |}.

(** No identity, no document, 2023-11-14T22:13:20Z. *)
Definition empty : World :=
  {| accounts := []; currentUser := None; db := ∅; clock := 1700000000000 |}.

Definition admin_form (code pw confirm : string) : AdminRegistration.Component :=
  {| AdminRegistration.formData :=
       {| AdminRegistration.email := "alice@cvfms.lk";
          AdminRegistration.password := pw;
          AdminRegistration.confirmPassword := confirm;
          AdminRegistration.role := "admin";
          AdminRegistration.adminCode := code |};
     AdminRegistration.error := "";
     AdminRegistration.loading := false;
     AdminRegistration.systemAdminCode := Some "ADMIN2025";
     AdminRegistration.loadingCode := false |}.

Definition user_form : UserRegistration.Component :=
  {| UserRegistration.formData :=
       {| UserRegistration.fullName := ""; UserRegistration.email := "";
          UserRegistration.phone := ""; UserRegistration.password := "";
          UserRegistration.confirmPassword := "" |};
     UserRegistration.error := "";
     UserRegistration.loading := false |}.

Definition roster (action : AdminManagement.ActionType) (input : string)
    (target : option Doc) : AdminManagement.Component :=
  {| AdminManagement.admins := []; AdminManagement.globalRegKey := "ADMIN2025";
     AdminManagement.loading := false; AdminManagement.selectedAdmin := target;
     AdminManagement.actionType := Some action;
     AdminManagement.newValueInput := input; AdminManagement.errorMsg := "" |}.

(** Alice has registered as an admin. *)
Definition registered : World :=
  world (AdminRegistration.handleSubmit prompt
           (empty, admin_form "ADMIN2025" "s3cret!" "s3cret!")).

(** ... and has then been banned from the roster. *)
Definition alice_banned : World :=
  world (AdminManagement.handleExecute prompt
           (registered,
            roster AdminManagement.ban "" (Some {["id" := "uid-alice"]}))).

(** Gina has signed up with her Google identity. *)
Definition gina_signed_up : World :=
  world (UserRegistration.handleGoogleSignup prompt (empty, user_form)).

(** ... and has then been banned from the roster. *)
Definition gina_banned : World :=
  world (AdminManagement.handleExecute prompt
           (gina_signed_up,
            roster AdminManagement.ban "" (Some {["id" := "uid-gina"]}))).

(** The configuration record exists but holds no registration key. *)
Definition config_without_key : World :=
  set_db (insert ("settings", "admin_config") ∅) empty.

(** The account the provider holds for Alice once she has registered. *)
Definition alice_account : Account :=
  {| acc_user := alice; acc_password := Some "s3cret!" |}.

(** The profile written by her registration. *)
Definition alice_profile : Doc :=
  {["uid" := "uid-alice"; "email" := "alice@cvfms.lk"; "role" := "admin";
    "status" := "active"; "createdAt" := "2023-11-14T22:13:20.010Z"]}.

(** Alice's identity exists at the provider, but her profile document was
    never written. *)
Definition alice_without_profile : World :=
  set_db (delete ("users", "uid-alice")) registered.

End Scenario.

(** The identity [AdminRegistration.handleSubmit] asks the provider to
    create. *)
Definition new_identity (env : Env) (c : AdminRegistration.Component) : Account :=
  {| acc_user :=
       {| Auth.uid := freshUid env;
          Auth.email := AdminRegistration.email (AdminRegistration.formData c);
          Auth.displayName := None |};
     acc_password :=
       Some (AdminRegistration.password (AdminRegistration.formData c)) |}.

(** ** Further scenarios *)

Module Cases.

Definition env_of (f : Service -> Response) : Env :=
  {| respond := f; freshUid := "uid-alice"; googleUser := Scenario.gina |}.

(** The store acknowledges a write after 6 s. *)
Definition store_slow : Env :=
  env_of (fun s => match s with SetDoc => Reply 6000 | _ => Reply 10 end).
Definition updates_down : Env :=
  env_of (fun s => match s with UpdateDoc => Fault "offline" 10 | _ => Reply 10 end).
Definition reads_down : Env :=
  env_of (fun s => match s with GetDoc => Fault "offline" 10 | _ => Reply 10 end).
Definition reads_silent : Env :=
  env_of (fun s => match s with GetDoc => Silent | _ => Reply 10 end).
Definition query_down : Env :=
  env_of (fun s => match s with GetDocs => Fault "offline" 10 | _ => Reply 10 end).
Definition auth_down : Env :=
  env_of (fun s => match s with
                   | CreateUser | Popup => Fault "network" 10
                   | _ => Reply 10
                   end).
Definition signout_down : Env :=
  env_of (fun s => match s with SignOut => Fault "offline" 10 | _ => Reply 10 end).

Definition signup (pw confirm : string) : UserRegistration.Component :=
  {| UserRegistration.formData :=
       {| UserRegistration.fullName := "Alice";
          UserRegistration.email := "alice@cvfms.lk";
          UserRegistration.phone := "0771234567";
          UserRegistration.password := pw;
          UserRegistration.confirmPassword := confirm |};
     UserRegistration.error := "";
     UserRegistration.loading := false |}.

(** The admin form before the registration code has been fetched. *)
Definition unfetched (code : string) : AdminRegistration.Component :=
  {| AdminRegistration.formData :=
       {| AdminRegistration.email := "alice@cvfms.lk";
          AdminRegistration.password := "s3cret!";
          AdminRegistration.confirmPassword := "s3cret!";
          AdminRegistration.role := "admin";
          AdminRegistration.adminCode := code |};
     AdminRegistration.error := "";
     AdminRegistration.loading := false;
     AdminRegistration.systemAdminCode := None;
     AdminRegistration.loadingCode := true |}.

Definition alice_form : AdminRegistration.Component :=
  Scenario.admin_form "ADMIN2025" "s3cret!" "s3cret!".

(** The roster row of Alice, as picked in the modal. *)
Definition alice_row : Doc := {["id" := "uid-alice"]}.

(** Alice has signed up through the user registration page. *)
Definition user_registered : World :=
  world (UserRegistration.handleSubmit Scenario.prompt
           (Scenario.empty, signup "s3cret!" "s3cret!")).

(** Gina has registered as an admin with her Google identity. *)
Definition gina_admin : World :=
  world (AdminRegistration.handleGoogleRegister Scenario.prompt
           (Scenario.empty, Scenario.admin_form "ADMIN2025" "" "")).

(** Alice, respectively Gina, is banned and nobody is signed in. *)
Definition alice_banned_signed_out : World :=
  set_currentUser None Scenario.alice_banned.
Definition gina_banned_signed_out : World :=
  set_currentUser None Scenario.gina_banned.

End Cases.

(** * Verification *)

(** ** The calendar rendering at known instants *)

Example toISOString_epoch : Iso.toISOString 0 = "1970-01-01T00:00:00.000Z".
Proof. reflexivity. Qed.

Example toISOString_leap_day :
  Iso.toISOString 951782400123 = "2000-02-29T00:00:00.123Z".
Proof. vm_compute. reflexivity. Qed.

Example toISOString_2023 :
  Iso.toISOString 1700000000000 = "2023-11-14T22:13:20.000Z".
Proof. vm_compute. reflexivity. Qed.

(** ** The ban lifecycle on a concrete run

    Banned from the roster, Alice is denied on recovery; unbanned, she is
    restored by the same call. *)

Example ban_then_recover_then_unban :
  AdminRegistration.terminal
    (AdminRegistration.handleSubmit Scenario.prompt
       (Scenario.alice_banned,
        Scenario.admin_form "ADMIN2025" "s3cret!" "s3cret!")) = Denied ∧
  AdminRegistration.terminal
    (AdminRegistration.handleSubmit Scenario.prompt
       (world (AdminManagement.handleExecute Scenario.prompt
                 (Scenario.alice_banned,
                  Scenario.roster AdminManagement.unban ""
                    (Some {["id" := "uid-alice"]}))),
        Scenario.admin_form "ADMIN2025" "s3cret!" "s3cret!")) = Restored.
Proof. split; vm_compute; reflexivity. Qed.

(** ** Symbolic execution of handlers

    [exec E] unfolds the handler on the left of the equation [E] and splits
    on whatever blocks its evaluation (an answer of the environment, a
    lookup, a test), one path per goal. *)

Ltac head_of t := lazymatch t with ?f _ => head_of f | _ => t end.

Ltac blocker t :=
  lazymatch t with
  | match ?x with _ => _ end => blocker x
  | _ =>
      let h := head_of t in
      lazymatch h with
      | match ?x with _ => _ end => blocker x
      | _ => t
      end
  end.

Ltac unfold_js E :=
  cbv beta iota zeta delta
    [bind ret throw emit getWorld modWorld getState modState try_catch
     try_finally await awaiting answer failure_code new_Date_toISOString
     withTimeout
     createUserWithEmailAndPassword signInWithEmailAndPassword signInWithPopup
     signOut getDoc setDoc_merge updateDoc getDocs_where
     fst snd id set_currentUser set_accounts set_db tick
     UserRegistration.setError UserRegistration.setLoading
     UserRegistration.saveUserProfile UserRegistration.handleSubmit
     UserRegistration.handleGoogleSignup
     AdminRegistration.setError AdminRegistration.setLoading
     AdminRegistration.setSystemAdminCode AdminRegistration.setLoadingCode
     AdminRegistration.fetchAdminCode AdminRegistration.setupAdminProfile
     AdminRegistration.message_or_unknown AdminRegistration.handleSubmit
     AdminRegistration.handleGoogleRegister
     AdminManagement.setAdmins AdminManagement.setGlobalRegKey
     AdminManagement.setLoading AdminManagement.setErrorMsg
     AdminManagement.closeModal AdminManagement.selectedAdmin_id
     AdminManagement.fetchData AdminManagement.handleExecute] in E;
  cbn [accounts currentUser db clock code message latency value commit app
       Auth.uid Auth.email Auth.displayName acc_user acc_password
       UserRegistration.formData UserRegistration.error UserRegistration.loading
       AdminRegistration.formData AdminRegistration.error
       AdminRegistration.loading AdminRegistration.systemAdminCode
       AdminRegistration.loadingCode
       AdminManagement.admins AdminManagement.globalRegKey
       AdminManagement.loading AdminManagement.selectedAdmin
       AdminManagement.actionType AdminManagement.newValueInput
       AdminManagement.errorMsg] in E.

Ltac exec E :=
  unfold_js E;
  repeat (
    lazymatch type of E with
    | ?l = _ =>
        let b := blocker l in
        lazymatch b with
        | (_, _) => fail
        | bool_decide ?P => destruct (bool_decide_reflect P)
        | _ => destruct b eqn:?
        end
    end; simplify_eq; try done; try (exfalso; lia); try unfold_js E);
  simplify_eq.

(** Name the outcome of a run and execute it. *)
Ltac run_as out E :=
  destruct out as [[? [? ?]] ?] eqn:E; subst out; exec E; try done.

Ltac observe :=
  cbn [result world component trace fst snd existsb is_write is_OnRegister
       is_Alert is_Remote orb accounts currentUser db clock code message app
       Auth.uid Auth.email Auth.displayName acc_user acc_password
       UserRegistration.formData UserRegistration.error UserRegistration.loading
       AdminRegistration.formData AdminRegistration.error
       AdminRegistration.loading AdminRegistration.systemAdminCode
       AdminRegistration.loadingCode
       AdminManagement.admins AdminManagement.globalRegKey
       AdminManagement.loading AdminManagement.selectedAdmin
       AdminManagement.actionType AdminManagement.newValueInput
       AdminManagement.errorMsg] in *.

(** ** Documents and merge-writes *)

Lemma mergeWrite_lookup (fields : Doc) (old : option Doc) (k : string) :
  mergeWrite fields old !! k =
    match fields !! k with
    | Some v => Some v
    | None => old ≫= (.!! k)
    end.
Proof.
  unfold mergeWrite. rewrite lookup_union.
  destruct (fields !! k) as [v|], old as [d|]; cbn; try done.
  - by destruct (d !! k).
  - by destruct (d !! k).
Qed.

Lemma is_banned_true (w : World) (u : string) :
  AdminRegistration.is_banned (db w !! ("users", u)) = true <-> banned_profile w u.
Proof.
  unfold AdminRegistration.is_banned, banned_profile, field.
  destruct (db w !! ("users", u)) as [d|]; cbn; [|done].
  by rewrite bool_decide_eq_true.
Qed.

Lemma is_banned_absent (w : World) (u : string) :
  db w !! ("users", u) = None ->
  AdminRegistration.is_banned (db w !! ("users", u)) = false.
Proof. by intros ->. Qed.

Section AdminRegistrationProofs.
Import AdminRegistration.
Variables (env : Env) (w : World) (c : Component).

(** *** Validation *)

Lemma validation_rejects :
  let out := handleSubmit env (w, c) in
  loadingCode c = false ->
  (Some (adminCode (formData c)) ≠ systemAdminCode c -> terminal out = CodeMismatch)
  ∧ (Some (adminCode (formData c)) = systemAdminCode c ->
     password (formData c) ≠ confirmPassword (formData c) ->
     terminal out = PasswordMismatch)
  ∧ (Some (adminCode (formData c)) = systemAdminCode c ->
     password (formData c) = confirmPassword (formData c) ->
     (String.length (password (formData c)) < 6)%nat ->
     terminal out = WeakPassword).
Proof.
  intros out Hl. repeat split; intros; run_as out E; done.
Qed.

Lemma validation_is_local :
  let out := handleSubmit env (w, c) in
  Some (adminCode (formData c)) ≠ systemAdminCode c
  ∨ password (formData c) ≠ confirmPassword (formData c)
  ∨ (String.length (password (formData c)) < 6)%nat ->
  world out = w ∧ trace out = [].
Proof.
  intros out [?|[?|?]]; run_as out E; done.
Qed.

(** *** The recovery branch *)

Lemma wrong_password_frame (a : Account) :
  let out := handleSubmit env (w, c) in
  find_account (email (formData c)) (accounts w) = Some a ->
  password_ok a (password (formData c)) = false ->
  same_state w (world out) ∧ existsb is_write (trace out) = false.
Proof. intros out Ha Hp. run_as out E; observe; done. Qed.

Lemma wrong_password_reported (a : Account) (tc : N) :
  let out := handleSubmit env (w, c) in
  valid_input c ->
  find_account (email (formData c)) (accounts w) = Some a ->
  password_ok a (password (formData c)) = false ->
  respond env CreateUser = Reply tc ->
  respond env SignIn ≠ Silent ->
  terminal out = IncorrectCredential ∧
  error (component out) =
    "This email is already registered, but the password was incorrect. Please Log In.".
Proof.
  intros out ([Hl Hc] & Hpw & Hlen) Ha Hp Ht Hs. run_as out E; done.
Qed.

Lemma banned_email_never_restored (a : Account) :
  let out := handleSubmit env (w, c) in
  find_account (email (formData c)) (accounts w) = Some a ->
  banned_profile w (Auth.uid (acc_user a)) ->
  terminal out ≠ Restored ∧ terminal out ≠ Created ∧
  db (world out) = db w ∧ existsb is_write (trace out) = false.
Proof.
  intros out Ha Hb. apply is_banned_true in Hb.
  run_as out E; observe; cbn; done.
Qed.

Lemma banned_email_denied (a : Account) (tc ts tg to : N) :
  let out := handleSubmit env (w, c) in
  valid_input c ->
  find_account (email (formData c)) (accounts w) = Some a ->
  password_ok a (password (formData c)) = true ->
  banned_profile w (Auth.uid (acc_user a)) ->
  respond env CreateUser = Reply tc -> respond env SignIn = Reply ts ->
  respond env GetDoc = Reply tg -> respond env SignOut = Reply to ->
  terminal out = Denied ∧ In (Remote ReqSignOut) (trace out) ∧
  currentUser (world out) = None.
Proof.
  intros out ([Hl Hc] & Hpw & Hlen) Ha Hp Hb ? ? ? ?. apply is_banned_true in Hb.
  run_as out E; observe; cbn; try done.
  split_and!; try done. tauto.
Qed.

(** *** The federated flow *)

Lemma banned_google_never_restored :
  let out := handleGoogleRegister env (w, c) in
  banned_profile w (Auth.uid (googleUser env)) ->
  terminal out ≠ Restored ∧ db (world out) = db w ∧
  existsb is_write (trace out) = false.
Proof.
  intros out Hb. apply is_banned_true in Hb.
  run_as out E; observe; cbn; done.
Qed.

Lemma banned_google_denied (tp tg to : N) :
  let out := handleGoogleRegister env (w, c) in
  code_accepted c ->
  banned_profile w (Auth.uid (googleUser env)) ->
  respond env Popup = Reply tp -> respond env GetDoc = Reply tg ->
  respond env SignOut = Reply to ->
  terminal out = Denied ∧ In (Remote ReqSignOut) (trace out) ∧
  currentUser (world out) = None.
Proof.
  intros out [Hl Hc] Hb ? ? ?. apply is_banned_true in Hb.
  run_as out E; observe; cbn; try done.
  all: split_and!; try done; tauto.
Qed.

Lemma denied_email_banned :
  terminal (handleSubmit env (w, c)) = Denied ->
  ∃ a, find_account (email (formData c)) (accounts w) = Some a ∧
       banned_profile w (Auth.uid (acc_user a)).
Proof.
  set (out := handleSubmit env (w, c)).
  run_as out E; observe; cbn; try done.
  all: intros _; eexists; split; [reflexivity|]; by apply is_banned_true.

Qed.

Lemma denied_google_banned :
  terminal (handleGoogleRegister env (w, c)) = Denied ->
  banned_profile w (Auth.uid (googleUser env)).
Proof.
  set (out := handleGoogleRegister env (w, c)).
  run_as out E; observe; cbn; try done.
  all: intros _; by apply is_banned_true.
Qed.
End AdminRegistrationProofs.

(** Close a goal saying that a field of a document is what it was, across
    the merge-write of a run (or across none). *)
Ltac frame :=
  unfold field; observe; try done;
  rewrite lookup_insert; case_decide; simplify_eq; [|done];
  cbn -[mergeWrite specified]; rewrite mergeWrite_lookup; cbn [specified];
  rewrite ?lookup_insert_ne by done; rewrite lookup_empty; done.

Section AdminProfileProofs.
Import AdminRegistration.
Variables (env : Env) (w : World) (c : Component).

(** *** Creation *)

Lemma creation_profile (tc tw : N) :
  let out := handleSubmit env (w, c) in
  valid_input c ->
  find_account (email (formData c)) (accounts w) = None ->
  db w !! ("users", freshUid env) = None ->
  respond env CreateUser = Reply tc -> respond env SetDoc = Reply tw ->
  terminal out = Created ∧
  db (world out) !! ("users", freshUid env) =
    Some (<["uid" := freshUid env]>
            (<["email" := email (formData c)]>
               (<["role" := "admin"]>
                  (<["status" := "active"]>
                     {["createdAt" := Iso.toISOString (clock w + tc)]})))).
Proof.
  intros out ([Hl Hc] & Hpw & Hlen) Hnew Hfresh ? ?.
  run_as out E; observe. split; [done|].
  by rewrite lookup_insert_eq, Hfresh.
Qed.

(** *** Recovery *)

Lemma recovery_profile (a : Account) (d : Doc) (tc ts tg tw : N) :
  let out := handleSubmit env (w, c) in
  let now := Iso.toISOString (clock w + tc + ts + tg) in
  let r := ("users", Auth.uid (acc_user a)) in
  valid_input c ->
  find_account (email (formData c)) (accounts w) = Some a ->
  password_ok a (password (formData c)) = true ->
  db w !! r = Some d ->
  d !! "status" ≠ Some "banned" ->
  respond env CreateUser = Reply tc -> respond env SignIn = Reply ts ->
  respond env GetDoc = Reply tg -> respond env SetDoc = Reply tw ->
  terminal out = Restored ∧
  accounts (world out) = accounts w ∧
  db (world out) =
    <[r := {["uid" := Auth.uid (acc_user a);
             "email" := Auth.email (acc_user a);
             "role" := "admin"; "status" := "active";
             "restoredAt" := now]} ∪ d]> (db w).
Proof.
  intros out now r ([Hl Hc] & Hpw & Hlen) Ha Hp Hd Hs ? ? ? ?. subst r now.
  assert (is_banned (db w !! ("users", Auth.uid (acc_user a))) = false) as Hb.
  { rewrite Hd. cbn. by apply bool_decide_eq_false. }
  run_as out E; observe.
  split_and!; try done. by rewrite Hd.
Qed.

Lemma absent_profile_email (a : Account) (tc ts tg tw : N) :
  let out := handleSubmit env (w, c) in
  let r := ("users", Auth.uid (acc_user a)) in
  valid_input c ->
  find_account (email (formData c)) (accounts w) = Some a ->
  password_ok a (password (formData c)) = true ->
  db w !! r = None ->
  respond env CreateUser = Reply tc -> respond env SignIn = Reply ts ->
  respond env GetDoc = Reply tg -> respond env SetDoc = Reply tw ->
  terminal out = Restored ∧ field (world out) r "status" = Some "active".
Proof.
  intros out r ([Hl Hc] & Hpw & Hlen) Ha Hp Hd ? ? ? ?. subst r.
  pose proof (is_banned_absent _ _ Hd) as Hb.
  run_as out E; observe.
  split; [done|]. unfold field; observe. by rewrite lookup_insert_eq, Hd.
Qed.

Lemma absent_profile_google (tp tg tw : N) :
  let out := handleGoogleRegister env (w, c) in
  let r := ("users", Auth.uid (googleUser env)) in
  code_accepted c ->
  db w !! r = None ->
  respond env Popup = Reply tp -> respond env GetDoc = Reply tg ->
  respond env SetDoc = Reply tw ->
  terminal out = Restored ∧ field (world out) r "status" = Some "active".
Proof.
  intros out r [Hl Hc] Hd ? ? ?. subst r.
  pose proof (is_banned_absent _ _ Hd) as Hb.
  run_as out E; observe.
  split; [done|]. unfold field; observe. by rewrite lookup_insert_eq, Hd.
Qed.


(** *** Which merge-writes touch [createdAt] and [restoredAt] *)

Lemma google_keeps_createdAt (r : DocRef) :
  field (world (handleGoogleRegister env (w, c))) r "createdAt"
    = field w r "createdAt".
Proof.
  set (out := handleGoogleRegister env (w, c)).
  run_as out E; frame.
Qed.

Lemma recovery_keeps_createdAt (a : Account) (r : DocRef) :
  find_account (email (formData c)) (accounts w) = Some a ->
  field (world (handleSubmit env (w, c))) r "createdAt" = field w r "createdAt".
Proof.
  intros Ha. set (out := handleSubmit env (w, c)).
  run_as out E; frame.
Qed.

Lemma creation_keeps_restoredAt (r : DocRef) :
  find_account (email (formData c)) (accounts w) = None ->
  field (world (handleSubmit env (w, c))) r "restoredAt" = field w r "restoredAt".
Proof.
  intros Ha. set (out := handleSubmit env (w, c)).
  run_as out E; frame.
Qed.
End AdminProfileProofs.

(** Time bounds, with the outcome of the race in the hypotheses. *)
(** *** The race against the timer *)

(** The race cancels nothing.  Whichever of the promise and the timer
    settles first, the caller goes on after the lesser of the two delays,
    and the effect of an answered request is there. *)
Lemma withTimeout_keeps_effect {C A} (st : Settled A) (ms : N) (w : World) (c : C) :
  world (await (withTimeout (Some st) ms) (w, c))
    = tick (N.min (latency st) ms) (commit st w).
Proof.
  unfold withTimeout. destruct (latency st <? ms)%N eqn:Hlt.
  - apply N.ltb_lt in Hlt. rewrite N.min_l by lia.
    unfold await. destruct (value st); reflexivity.
  - apply N.ltb_ge in Hlt. rewrite N.min_r by lia. reflexivity.
Qed.

Ltac clock_bound :=
  repeat match goal with
         | H : (_ <? _)%N = true |- _ => apply N.ltb_lt in H
         | H : (_ <? _)%N = false |- _ => apply N.ltb_ge in H
         end;
  lia.

Section UserRegistrationProofs.
Import UserRegistration.
Variables (env : Env) (w : World) (c : Component).

(** *** The bounded, best-effort upsert *)

Lemma saveUserProfile_returns (user : User) (isGoogle : bool) :
  let out := saveUserProfile env user isGoogle (w, c) in
  result out = Return tt ∧ (clock (world out) <= clock w + 5000)%N.
Proof.
  intros out. run_as out E; observe; split; try done; clock_bound.
Qed.

Lemma user_submit_succeeds (tc : N) :
  let out := handleSubmit env (w, c) in
  password (formData c) = confirmPassword (formData c) ->
  (6 <= String.length (password (formData c)))%nat ->
  find_account (email (formData c)) (accounts w) = None ->
  respond env CreateUser = Reply tc ->
  result out = Return tt ∧ In OnRegister (trace out) ∧ error (component out) = "" ∧
  (clock (world out) <= clock w + tc + 5000)%N.
Proof.
  intros out Hpw Hlen Hnew Hc.
  run_as out E; observe; split_and!; try done; try clock_bound; cbn; tauto.
Qed.

Lemma google_signup_succeeds (tp : N) :
  let out := handleGoogleSignup env (w, c) in
  respond env Popup = Reply tp ->
  result out = Return tt ∧ In OnRegister (trace out) ∧ error (component out) = "" ∧
  (clock (world out) <= clock w + tp + 5000)%N.
Proof.
  intros out Hp.
  run_as out E; observe; split_and!; try done; try clock_bound; cbn; tauto.
Qed.

Lemma user_submit_keeps_restoredAt (r : DocRef) :
  field (world (handleSubmit env (w, c))) r "restoredAt" = field w r "restoredAt".
Proof.
  set (out := handleSubmit env (w, c)).
  run_as out E; frame.
Qed.

Lemma google_signup_keeps_restoredAt (r : DocRef) :
  field (world (handleGoogleSignup env (w, c))) r "restoredAt" = field w r "restoredAt".
Proof.
  set (out := handleGoogleSignup env (w, c)).
  run_as out E; frame.
Qed.
End UserRegistrationProofs.

(** ** The registration code and its two readers *)

Lemma long_code_nonempty (k : string) : (5 <= String.length k)%nat -> k ≠ "".
Proof. intros H ->. cbn in H. lia. Qed.

Lemma or_else_truthy (o : option string) (b : string) :
  or_else o b = if truthy o then default "" o else b.
Proof.
  destruct o as [s|]; cbn; [|done].
  by destruct (bool_decide_reflect (s = "")); case_bool_decide.
Qed.

Section AccessCodeProofs.
Variables (env : Env) (w : World).

Lemma registration_reads_code (c : AdminRegistration.Component) (tg : N) :
  respond env GetDoc = Reply tg ->
  AdminRegistration.systemAdminCode
    (component (AdminRegistration.fetchAdminCode env (w, c))) =
  Some match db w !! admin_config with
       | Some d => or_else (d !! "registrationKey") "ADMIN2025"
       | None => "ADMIN2025"
       end.
Proof.
  intros Hg. set (out := AdminRegistration.fetchAdminCode env (w, c)).
  unfold admin_config.
  run_as out E; observe; rewrite or_else_truthy; by rewrite Heqb.
Qed.

Lemma roster_reads_code (c : AdminManagement.Component) (tq tg : N) :
  respond env GetDocs = Reply tq ->
  respond env GetDoc = Reply tg ->
  AdminManagement.globalRegKey
    (component (AdminManagement.fetchData env (w, c))) =
  match db w !! admin_config with
  | Some d => or_else (d !! "registrationKey") "Not Set"
  | None => "ADMIN2025"
  end.
Proof.
  intros Hq Hg. set (out := AdminManagement.fetchData env (w, c)).
  unfold admin_config.
  run_as out E.
Qed.

(** *** Rotating the code *)

Lemma short_code_rejected (c : AdminManagement.Component) :
  let out := AdminManagement.handleExecute env (w, c) in
  AdminManagement.actionType c = Some AdminManagement.update_reg_key ->
  (String.length (AdminManagement.newValueInput c) < 5)%nat ->
  AdminManagement.errorMsg (component out) = "Code is too short (min 5 chars)." ∧
  world out = w ∧ trace out = [].
Proof. intros out Ha Hlen. run_as out E. Qed.

Lemma long_code_not_rejected (c : AdminManagement.Component) :
  let out := AdminManagement.handleExecute env (w, c) in
  AdminManagement.actionType c = Some AdminManagement.update_reg_key ->
  (5 <= String.length (AdminManagement.newValueInput c))%nat ->
  AdminManagement.errorMsg (component out) ≠ "Code is too short (min 5 chars).".
Proof. intros out Ha Hlen. run_as out E. Qed.

Lemma long_code_persisted (c : AdminManagement.Component) (tw : N) :
  let out := AdminManagement.handleExecute env (w, c) in
  AdminManagement.actionType c = Some AdminManagement.update_reg_key ->
  (5 <= String.length (AdminManagement.newValueInput c))%nat ->
  respond env SetDoc = Reply tw ->
  result out = Return tt ∧
  AdminManagement.errorMsg (component out) = "" ∧
  AdminManagement.globalRegKey (component out) = AdminManagement.newValueInput c ∧
  db (world out) !! admin_config =
    Some ({["registrationKey" := AdminManagement.newValueInput c]}
            ∪ default ∅ (db w !! admin_config)) ∧
  field (world out) admin_config "registrationKey"
    = Some (AdminManagement.newValueInput c).
Proof.
  intros out Ha Hlen Hw. unfold admin_config.
  run_as out E; unfold field; observe.
  rewrite lookup_insert_eq. split_and!; try done.
  cbn -[mergeWrite specified]. by rewrite mergeWrite_lookup.
Qed.
End AccessCodeProofs.

(** * The claims *)

(** C1.  A banned identity is not denied on every execution.  The ban
    check comes after the sign-in and sits inside the [try] whose handler
    reports a wrong password (respectively a failed Google registration),
    and the session is signed out only once the profile has been read.
    When the read of the profile is refused, or the sign-out is, a banned
    identity with the right credentials ends in that handler and not in
    [Denied], and it stays signed in; with the read refused no sign-out is
    even requested. *)
Lemma banned_identity_left_signed_in :
  banned_profile Cases.alice_banned_signed_out "uid-alice" ∧
  banned_profile Cases.gina_banned_signed_out "uid-gina" ∧
  currentUser Cases.alice_banned_signed_out = None ∧
  currentUser Cases.gina_banned_signed_out = None ∧
  AdminRegistration.terminal
    (AdminRegistration.handleSubmit Cases.reads_down
       (Cases.alice_banned_signed_out, Cases.alice_form)) = IncorrectCredential ∧
  currentUser
    (world (AdminRegistration.handleSubmit Cases.reads_down
              (Cases.alice_banned_signed_out, Cases.alice_form)))
    = Some Scenario.alice ∧
  trace (AdminRegistration.handleSubmit Cases.reads_down
           (Cases.alice_banned_signed_out, Cases.alice_form))
    = [Remote (ReqCreateUser "alice@cvfms.lk"); Remote (ReqSignIn "alice@cvfms.lk");
       Remote (ReqGetDoc ("users", "uid-alice"))] ∧
  AdminRegistration.terminal
    (AdminRegistration.handleSubmit Cases.signout_down
       (Cases.alice_banned_signed_out, Cases.alice_form)) = IncorrectCredential ∧
  currentUser
    (world (AdminRegistration.handleSubmit Cases.signout_down
              (Cases.alice_banned_signed_out, Cases.alice_form)))
    = Some Scenario.alice ∧
  AdminRegistration.terminal
    (AdminRegistration.handleGoogleRegister Cases.reads_down
       (Cases.gina_banned_signed_out, Scenario.admin_form "ADMIN2025" "" ""))
    = Failed "offline" ∧
  currentUser
    (world (AdminRegistration.handleGoogleRegister Cases.reads_down
              (Cases.gina_banned_signed_out, Scenario.admin_form "ADMIN2025" "" "")))
    = Some Scenario.gina ∧
  trace (AdminRegistration.handleGoogleRegister Cases.reads_down
           (Cases.gina_banned_signed_out, Scenario.admin_form "ADMIN2025" "" ""))
    = [Remote ReqPopup; Remote (ReqGetDoc ("users", "uid-gina"))].
Proof. split_and!; vm_compute; reflexivity. Qed.

(** The part of C1 that holds.  When the profile stored for an identity is
    banned, neither the
    email/password flow nor the federated flow ever ends in [Restored] (or
    [Created]), and neither writes to the document store, whatever the
    services answer.  When the flow gets as far as the ban check (the input
    is valid, the login or the popup succeeds, and the services answer), it
    ends in [Denied], has signed the session out, and still has written
    nothing. *)
Theorem banned_identity_is_denied
    (env : Env) (w : World) (c : AdminRegistration.Component) :
  (∀ a : Account,
     find_account (AdminRegistration.email (AdminRegistration.formData c))
       (accounts w) = Some a ->
     banned_profile w (Auth.uid (acc_user a)) ->
     let out := AdminRegistration.handleSubmit env (w, c) in
     (AdminRegistration.terminal out ≠ Restored ∧
      AdminRegistration.terminal out ≠ Created ∧
      db (world out) = db w ∧ existsb is_write (trace out) = false) ∧
     (valid_input c ->
      password_ok a (AdminRegistration.password (AdminRegistration.formData c)) = true ->
      ∀ tc ts tg to : N,
        respond env CreateUser = Reply tc -> respond env SignIn = Reply ts ->
        respond env GetDoc = Reply tg -> respond env SignOut = Reply to ->
        AdminRegistration.terminal out = Denied ∧
        In (Remote ReqSignOut) (trace out) ∧ currentUser (world out) = None))
  ∧ (banned_profile w (Auth.uid (googleUser env)) ->
     let out := AdminRegistration.handleGoogleRegister env (w, c) in
     (AdminRegistration.terminal out ≠ Restored ∧
      db (world out) = db w ∧ existsb is_write (trace out) = false) ∧
     (code_accepted c ->
      ∀ tp tg to : N,
        respond env Popup = Reply tp -> respond env GetDoc = Reply tg ->
        respond env SignOut = Reply to ->
        AdminRegistration.terminal out = Denied ∧
        In (Remote ReqSignOut) (trace out) ∧ currentUser (world out) = None)).
Proof.
  split.
  - intros a Ha Hb out. split.
    + by apply (banned_email_never_restored env w c a).
    + intros Hv Hp tc ts tg to ? ? ? ?.
      by apply (banned_email_denied env w c a tc ts tg to).
  - intros Hb out. split.
    + by apply banned_google_never_restored.
    + intros Hc tp tg to ? ? ?.
      by apply (banned_google_denied env w c tp tg to).
Qed.

Lemma banned_identity_is_denied_witness :
  banned_profile Scenario.alice_banned "uid-alice" ∧
  banned_profile Scenario.gina_banned "uid-gina" ∧
  AdminRegistration.terminal
    (AdminRegistration.handleSubmit Scenario.prompt
       (Scenario.alice_banned, Scenario.admin_form "ADMIN2025" "s3cret!" "s3cret!"))
    = Denied ∧
  AdminRegistration.terminal
    (AdminRegistration.handleGoogleRegister Scenario.prompt
       (Scenario.gina_banned, Scenario.admin_form "ADMIN2025" "" ""))
    = Denied.
Proof.
  assert (banned_profile Scenario.alice_banned "uid-alice") as Ha
    by (vm_compute; reflexivity).
  assert (banned_profile Scenario.gina_banned "uid-gina") as Hg
    by (vm_compute; reflexivity).
  split_and!; [exact Ha | exact Hg | |].
  - refine (proj1 (proj2 (proj1 (banned_identity_is_denied Scenario.prompt
             Scenario.alice_banned
             (Scenario.admin_form "ADMIN2025" "s3cret!" "s3cret!"))
             Scenario.alice_account _ Ha) _ _ 10%N 10%N 10%N 10%N _ _ _ _));
      try reflexivity.
    + vm_compute. repeat split; lia.
  - refine (proj1 (proj2 (proj2 (banned_identity_is_denied Scenario.prompt
             Scenario.gina_banned (Scenario.admin_form "ADMIN2025" "" ""))
             Hg) _ 10%N 10%N 10%N _ _ _)); try reflexivity.
    vm_compute. by split.
Defined.

(** C5.  [handleSubmit] checks the access code first, then that the two
    passwords agree, then the length of the password; a form that fails any
    of the three checks leaves the world as it was and issues no request
    and no callback at all. *)
Theorem validation_order_no_remote_call
    (env : Env) (w : World) (c : AdminRegistration.Component) :
  let f := AdminRegistration.formData c in
  let out := AdminRegistration.handleSubmit env (w, c) in
  (AdminRegistration.loadingCode c = false ->
     (Some (AdminRegistration.adminCode f) ≠ AdminRegistration.systemAdminCode c ->
      AdminRegistration.terminal out = CodeMismatch)
   ∧ (Some (AdminRegistration.adminCode f) = AdminRegistration.systemAdminCode c ->
      AdminRegistration.password f ≠ AdminRegistration.confirmPassword f ->
      AdminRegistration.terminal out = PasswordMismatch)
   ∧ (Some (AdminRegistration.adminCode f) = AdminRegistration.systemAdminCode c ->
      AdminRegistration.password f = AdminRegistration.confirmPassword f ->
      (String.length (AdminRegistration.password f) < 6)%nat ->
      AdminRegistration.terminal out = WeakPassword))
  ∧ (Some (AdminRegistration.adminCode f) ≠ AdminRegistration.systemAdminCode c
     ∨ AdminRegistration.password f ≠ AdminRegistration.confirmPassword f
     ∨ (String.length (AdminRegistration.password f) < 6)%nat ->
     world out = w ∧ trace out = [] ∧ existsb is_Remote (trace out) = false).
Proof.
  intros f out. split.
  - apply validation_rejects.
  - intros H. destruct (validation_is_local env w c H) as [Hw Ht].
    subst out. by rewrite Hw, Ht.
Qed.

Lemma validation_order_no_remote_call_witness :
  (* a wrong code wins over mismatching, short passwords *)
  AdminRegistration.terminal
    (AdminRegistration.handleSubmit Scenario.prompt
       (Scenario.empty, Scenario.admin_form "guess" "abc" "abd")) = CodeMismatch ∧
  (* mismatching passwords win over a short password *)
  AdminRegistration.terminal
    (AdminRegistration.handleSubmit Scenario.prompt
       (Scenario.empty, Scenario.admin_form "ADMIN2025" "abc" "abd")) = PasswordMismatch ∧
  AdminRegistration.terminal
    (AdminRegistration.handleSubmit Scenario.prompt
       (Scenario.empty, Scenario.admin_form "ADMIN2025" "abc" "abc")) = WeakPassword ∧
  world (AdminRegistration.handleSubmit Scenario.prompt
           (Scenario.empty, Scenario.admin_form "ADMIN2025" "abc" "abc"))
    = Scenario.empty ∧
  trace (AdminRegistration.handleSubmit Scenario.prompt
           (Scenario.empty, Scenario.admin_form "ADMIN2025" "abc" "abc")) = [].
Proof.
  pose proof (validation_order_no_remote_call Scenario.prompt Scenario.empty
                (Scenario.admin_form "guess" "abc" "abd")) as [H1 _].
  pose proof (validation_order_no_remote_call Scenario.prompt Scenario.empty
                (Scenario.admin_form "ADMIN2025" "abc" "abd")) as [H2 _].
  pose proof (validation_order_no_remote_call Scenario.prompt Scenario.empty
                (Scenario.admin_form "ADMIN2025" "abc" "abc")) as [H3 H4].
  split_and!.
  - apply (proj1 (H1 eq_refl)). vm_compute. discriminate.
  - apply (proj1 (proj2 (H2 eq_refl))); [reflexivity|]. vm_compute. discriminate.
  - apply (proj2 (proj2 (H3 eq_refl))); [reflexivity|reflexivity|]. vm_compute. lia.
  - apply H4. right. right. vm_compute. lia.
  - apply H4. right. right. vm_compute. lia.
Defined.

(** C6.  Registering again for an existing identity with a password that
    is not the identity's leaves accounts, session and documents as they
    were and writes nothing, whatever the services answer; when the
    provider answers the two requests, the flow ends in
    [IncorrectCredential]. *)
Theorem wrong_password_incorrect_credential
    (env : Env) (w : World) (c : AdminRegistration.Component) (a : Account) :
  let f := AdminRegistration.formData c in
  let out := AdminRegistration.handleSubmit env (w, c) in
  find_account (AdminRegistration.email f) (accounts w) = Some a ->
  password_ok a (AdminRegistration.password f) = false ->
  (same_state w (world out) ∧ existsb is_write (trace out) = false)
  ∧ (valid_input c ->
     ∀ tc : N, respond env CreateUser = Reply tc -> respond env SignIn ≠ Silent ->
     AdminRegistration.terminal out = IncorrectCredential ∧
     AdminRegistration.error (component out) =
       "This email is already registered, but the password was incorrect. Please Log In.").
Proof.
  intros f out Ha Hp. split.
  - by apply (wrong_password_frame env w c a).
  - intros Hv tc Hc Hs.
    by apply (wrong_password_reported env w c a tc).
Qed.

Lemma wrong_password_incorrect_credential_witness :
  find_account "alice@cvfms.lk" (accounts Scenario.registered) = Some Scenario.alice_account ∧
  password_ok Scenario.alice_account "not-hers" = false ∧
  AdminRegistration.terminal
    (AdminRegistration.handleSubmit Scenario.prompt
       (Scenario.registered, Scenario.admin_form "ADMIN2025" "not-hers" "not-hers"))
    = IncorrectCredential ∧
  same_state Scenario.registered
    (world (AdminRegistration.handleSubmit Scenario.prompt
              (Scenario.registered,
               Scenario.admin_form "ADMIN2025" "not-hers" "not-hers"))).
Proof.
  assert (find_account "alice@cvfms.lk" (accounts Scenario.registered)
          = Some Scenario.alice_account) as Ha by reflexivity.
  assert (password_ok Scenario.alice_account "not-hers" = false) as Hp by reflexivity.
  pose proof (wrong_password_incorrect_credential Scenario.prompt
                Scenario.registered
                (Scenario.admin_form "ADMIN2025" "not-hers" "not-hers")
                Scenario.alice_account Ha Hp) as [[Hs _] Ht].
  split_and!; [exact Ha | exact Hp | | exact Hs].
  refine (proj1 (Ht _ 10%N eq_refl _)).
  - vm_compute. repeat split; lia.
  - vm_compute. discriminate.
Defined.

(** C9.  Either flow ends in [Denied] only when the profile document of
    the identity exists and its [status] is ['banned'].  When the document
    is absent, the flow goes on as for an identity that is not banned: it
    ends in [Restored] and leaves a profile whose [status] is ['active']. *)
Theorem ban_check_only_on_banned_status
    (env : Env) (w : World) (c : AdminRegistration.Component) :
  let f := AdminRegistration.formData c in
  (AdminRegistration.terminal (AdminRegistration.handleSubmit env (w, c)) = Denied ->
   ∃ a d, find_account (AdminRegistration.email f) (accounts w) = Some a ∧
          db w !! ("users", Auth.uid (acc_user a)) = Some d ∧
          d !! "status" = Some "banned")
  ∧ (AdminRegistration.terminal (AdminRegistration.handleGoogleRegister env (w, c))
       = Denied ->
     ∃ d, db w !! ("users", Auth.uid (googleUser env)) = Some d ∧
          d !! "status" = Some "banned")
  ∧ (∀ (a : Account) (tc ts tg tw : N),
       valid_input c ->
       find_account (AdminRegistration.email f) (accounts w) = Some a ->
       password_ok a (AdminRegistration.password f) = true ->
       db w !! ("users", Auth.uid (acc_user a)) = None ->
       respond env CreateUser = Reply tc -> respond env SignIn = Reply ts ->
       respond env GetDoc = Reply tg -> respond env SetDoc = Reply tw ->
       let out := AdminRegistration.handleSubmit env (w, c) in
       AdminRegistration.terminal out = Restored ∧
       field (world out) ("users", Auth.uid (acc_user a)) "status" = Some "active")
  ∧ (∀ tp tg tw : N,
       code_accepted c ->
       db w !! ("users", Auth.uid (googleUser env)) = None ->
       respond env Popup = Reply tp -> respond env GetDoc = Reply tg ->
       respond env SetDoc = Reply tw ->
       let out := AdminRegistration.handleGoogleRegister env (w, c) in
       AdminRegistration.terminal out = Restored ∧
       field (world out) ("users", Auth.uid (googleUser env)) "status" = Some "active").
Proof.
  intros f. split_and!.
  - intros H. destruct (denied_email_banned env w c H) as (a & Ha & Hb).
    unfold banned_profile, field in Hb.
    destruct (db w !! ("users", Auth.uid (acc_user a))) as [d|] eqn:Hd; [|done].
    by exists a, d.
  - intros H. pose proof (denied_google_banned env w c H) as Hb.
    unfold banned_profile, field in Hb.
    destruct (db w !! ("users", Auth.uid (googleUser env))) as [d|] eqn:Hd; [|done].
    by exists d.
  - intros a tc ts tg tw ? ? ? ? ? ? ? ?.
    by apply (absent_profile_email env w c a tc ts tg tw).
  - intros tp tg tw ? ? ? ? ?.
    by apply (absent_profile_google env w c tp tg tw).
Qed.

Lemma ban_check_only_on_banned_status_witness :
  db Scenario.alice_without_profile !! ("users", "uid-alice") = None ∧
  AdminRegistration.terminal
    (AdminRegistration.handleSubmit Scenario.prompt
       (Scenario.alice_without_profile, Scenario.admin_form "ADMIN2025" "s3cret!" "s3cret!"))
    = Restored ∧
  field (world (AdminRegistration.handleSubmit Scenario.prompt
                  (Scenario.alice_without_profile,
                   Scenario.admin_form "ADMIN2025" "s3cret!" "s3cret!")))
    ("users", "uid-alice") "status" = Some "active" ∧
  AdminRegistration.terminal
    (AdminRegistration.handleGoogleRegister Scenario.prompt
       (Scenario.empty, Scenario.admin_form "ADMIN2025" "" "")) = Restored ∧
  (∃ d, db Scenario.alice_banned !! ("users", "uid-alice") = Some d ∧
        d !! "status" = Some "banned").
Proof.
  pose proof (ban_check_only_on_banned_status Scenario.prompt Scenario.alice_without_profile
                (Scenario.admin_form "ADMIN2025" "s3cret!" "s3cret!"))
    as (_ & _ & He & _).
  pose proof (ban_check_only_on_banned_status Scenario.prompt Scenario.empty
                (Scenario.admin_form "ADMIN2025" "" "")) as (_ & _ & _ & Hg).
  pose proof (ban_check_only_on_banned_status Scenario.prompt Scenario.alice_banned
                (Scenario.admin_form "ADMIN2025" "s3cret!" "s3cret!"))
    as (Hd & _).
  assert (valid_input (Scenario.admin_form "ADMIN2025" "s3cret!" "s3cret!")) as Hv
    by (vm_compute; repeat split; lia).
  assert (code_accepted (Scenario.admin_form "ADMIN2025" "" "")) as Hc
    by (vm_compute; by split).
  specialize (He Scenario.alice_account 10%N 10%N 10%N 10%N Hv eq_refl eq_refl eq_refl
                eq_refl eq_refl eq_refl eq_refl).
  specialize (Hg 10%N 10%N 10%N Hc eq_refl eq_refl eq_refl eq_refl).
  split_and!; [reflexivity | exact (proj1 He) | exact (proj2 He) | exact (proj1 Hg) |].
  destruct Hd as (a & d & Ha & Hd & Hs); [vm_compute; reflexivity|].
  injection Ha as <-. by exists d.
Defined.

(** C3 as the spec states it does not hold: the profile written on the
    creation path carries no [authProvider] field. *)
Lemma created_profile_has_no_authProvider :
  AdminRegistration.terminal
    (AdminRegistration.handleSubmit Scenario.prompt
       (Scenario.empty, Scenario.admin_form "ADMIN2025" "s3cret!" "s3cret!"))
    = Created ∧
  field (world (AdminRegistration.handleSubmit Scenario.prompt
                  (Scenario.empty,
                   Scenario.admin_form "ADMIN2025" "s3cret!" "s3cret!")))
    ("users", "uid-alice") "authProvider" ≠ Some "email".
Proof. split; [vm_compute; reflexivity | vm_compute; discriminate]. Qed.

(** C3, amended.  With an accepted access code, matching passwords of at
    least 6 characters and an email the provider does not know, when the
    provider creates the identity and the store takes the write, the flow
    ends in [Created] and the profile stored for the new identity is
    exactly [uid], [email], [role = admin], [status = active] and
    [createdAt], the instant at which the profile was built; it has neither
    [restoredAt] nor [authProvider]. *)
Theorem register_new_email_creates_profile
    (env : Env) (w : World) (c : AdminRegistration.Component) (tc tw : N) :
  let f := AdminRegistration.formData c in
  let out := AdminRegistration.handleSubmit env (w, c) in
  let r := ("users", freshUid env) in
  valid_input c ->
  find_account (AdminRegistration.email f) (accounts w) = None ->
  db w !! r = None ->
  respond env CreateUser = Reply tc -> respond env SetDoc = Reply tw ->
  AdminRegistration.terminal out = Created ∧
  db (world out) !! r =
    Some {["uid" := freshUid env;
           "email" := AdminRegistration.email f;
           "role" := "admin";
           "status" := "active";
           "createdAt" := Iso.toISOString (clock w + tc)]} ∧
  field (world out) r "role" = Some "admin" ∧
  field (world out) r "status" = Some "active" ∧
  field (world out) r "createdAt" = Some (Iso.toISOString (clock w + tc)) ∧
  field (world out) r "restoredAt" = None ∧
  field (world out) r "authProvider" = None.
Proof.
  intros f out r Hv Hnew Hfresh Hc Hw.
  destruct (creation_profile env w c tc tw Hv Hnew Hfresh Hc Hw) as [Ht Hd].
  fold out in Ht, Hd. fold r in Hd.
  unfold field. rewrite Hd. by split_and!.
Qed.

Lemma register_new_email_creates_profile_witness :
  valid_input (Scenario.admin_form "ADMIN2025" "s3cret!" "s3cret!") ∧
  find_account "alice@cvfms.lk" (accounts Scenario.empty) = None ∧
  AdminRegistration.terminal
    (AdminRegistration.handleSubmit Scenario.prompt
       (Scenario.empty, Scenario.admin_form "ADMIN2025" "s3cret!" "s3cret!"))
    = Created ∧
  field (world (AdminRegistration.handleSubmit Scenario.prompt
                  (Scenario.empty,
                   Scenario.admin_form "ADMIN2025" "s3cret!" "s3cret!")))
    ("users", "uid-alice") "createdAt" = Some "2023-11-14T22:13:20.010Z".
Proof.
  assert (valid_input (Scenario.admin_form "ADMIN2025" "s3cret!" "s3cret!")) as Hv
    by (vm_compute; repeat split; lia).
  pose proof (register_new_email_creates_profile Scenario.prompt Scenario.empty
                (Scenario.admin_form "ADMIN2025" "s3cret!" "s3cret!") 10 10
                Hv eq_refl eq_refl eq_refl eq_refl) as (Ht & _ & _ & _ & Hc & _).
  split_and!; [exact Hv | reflexivity | exact Ht | exact Hc].
Defined.

(** C4.  Registering again for an existing identity that is not banned,
    with the identity's password, ends in [Restored].  The merge-write sets
    [role = admin], [status = active] and [restoredAt]; it also writes the
    identity's own [uid] and [email], which a profile of that identity
    already holds.  Every other field, [createdAt] among them, is what it
    was, and so is every other document. *)
Theorem recover_restores_profile
    (env : Env) (w : World) (c : AdminRegistration.Component)
    (a : Account) (d : Doc) (tc ts tg tw : N) :
  let f := AdminRegistration.formData c in
  let out := AdminRegistration.handleSubmit env (w, c) in
  let r := ("users", Auth.uid (acc_user a)) in
  let now := Iso.toISOString (clock w + tc + ts + tg) in
  valid_input c ->
  find_account (AdminRegistration.email f) (accounts w) = Some a ->
  password_ok a (AdminRegistration.password f) = true ->
  db w !! r = Some d ->
  d !! "status" ≠ Some "banned" ->
  respond env CreateUser = Reply tc -> respond env SignIn = Reply ts ->
  respond env GetDoc = Reply tg -> respond env SetDoc = Reply tw ->
  AdminRegistration.terminal out = Restored ∧
  accounts (world out) = accounts w ∧
  (∀ r', r' ≠ r -> db (world out) !! r' = db w !! r') ∧
  ∃ d', db (world out) !! r = Some d' ∧
        d' !! "role" = Some "admin" ∧
        d' !! "status" = Some "active" ∧
        d' !! "restoredAt" = Some now ∧
        d' !! "uid" = Some (Auth.uid (acc_user a)) ∧
        d' !! "email" = Some (Auth.email (acc_user a)) ∧
        d' !! "createdAt" = d !! "createdAt" ∧
        (∀ k, k ∉ ["uid"; "email"; "role"; "status"; "restoredAt"] ->
              d' !! k = d !! k) ∧
        (d !! "uid" = Some (Auth.uid (acc_user a)) ->
         d !! "email" = Some (Auth.email (acc_user a)) ->
         d' = <["restoredAt" := now]>
                (<["status" := "active"]> (<["role" := "admin"]> d))).
Proof.
  intros f out r now Hv Ha Hp Hd Hs Hc Hi Hg Hw.
  destruct (recovery_profile env w c a d tc ts tg tw Hv Ha Hp Hd Hs Hc Hi Hg Hw)
    as (Ht & Hacc & Hdb).
  fold out in Ht, Hacc, Hdb. fold r now in Hdb.
  split_and!; [done | done | |].
  - intros r' Hr. by rewrite Hdb, lookup_insert_ne.
  - eexists. split; [by rewrite Hdb, lookup_insert_eq|].
    assert (∀ k, k ∉ ["uid"; "email"; "role"; "status"; "restoredAt"] ->
              ({["uid" := Auth.uid (acc_user a);
                 "email" := Auth.email (acc_user a);
                 "role" := "admin"; "status" := "active";
                 "restoredAt" := now]} ∪ d) !! k = d !! k) as Hframe.
    { intros k Hk. apply lookup_union_r.
      rewrite !lookup_insert_ne, lookup_singleton_ne; [done|..];
        intros <-; apply Hk; compute_done. }
    split_and!; try (by apply lookup_union_Some_l); try done.
    + apply Hframe. compute_done.
    + intros Hu He. apply map_eq. intros k.
      destruct (decide (k = "restoredAt")) as [->|];
        [by erewrite lookup_union_Some_l, lookup_insert_eq|].
      rewrite (lookup_insert_ne _ "restoredAt") by done.
      destruct (decide (k = "status")) as [->|];
        [by erewrite lookup_union_Some_l, lookup_insert_eq|].
      rewrite (lookup_insert_ne _ "status") by done.
      destruct (decide (k = "role")) as [->|];
        [by erewrite lookup_union_Some_l, lookup_insert_eq|].
      rewrite (lookup_insert_ne _ "role") by done.
      destruct (decide (k = "uid")) as [->|];
        [by erewrite lookup_union_Some_l, Hu|].
      destruct (decide (k = "email")) as [->|];
        [by erewrite lookup_union_Some_l, He|].
      apply Hframe. rewrite !not_elem_of_cons. split_and!; try done.
      apply not_elem_of_nil.
Qed.

Lemma recover_restores_profile_witness :
  db Scenario.registered !! ("users", "uid-alice") = Some Scenario.alice_profile ∧
  AdminRegistration.terminal
    (AdminRegistration.handleSubmit Scenario.prompt
       (Scenario.registered, Scenario.admin_form "ADMIN2025" "s3cret!" "s3cret!"))
    = Restored ∧
  db (world (AdminRegistration.handleSubmit Scenario.prompt
               (Scenario.registered,
                Scenario.admin_form "ADMIN2025" "s3cret!" "s3cret!")))
    !! ("users", "uid-alice")
    = Some (<["restoredAt" := "2023-11-14T22:13:20.050Z"]> Scenario.alice_profile).
Proof.
  assert (valid_input (Scenario.admin_form "ADMIN2025" "s3cret!" "s3cret!")) as Hv
    by (vm_compute; repeat split; lia).
  assert (db Scenario.registered !! ("users", "uid-alice") = Some Scenario.alice_profile)
    as Hd by (vm_compute; reflexivity).
  assert (Scenario.alice_profile !! "status" ≠ Some "banned") as Hs
    by (vm_compute; discriminate).
  pose proof (recover_restores_profile Scenario.prompt Scenario.registered
                (Scenario.admin_form "ADMIN2025" "s3cret!" "s3cret!")
                Scenario.alice_account Scenario.alice_profile 10 10 10 10 Hv eq_refl eq_refl Hd Hs
                eq_refl eq_refl eq_refl eq_refl)
    as (Ht & _ & _ & d' & Hd' & _ & _ & _ & _ & _ & _ & _ & Heq).
  split_and!; [exact Hd | exact Ht |].
  rewrite (Heq eq_refl eq_refl) in Hd'. exact Hd'.
Defined.

(** C2 as the spec states it does not hold: signing up with Google a
    second time through the user registration page overwrites [createdAt]
    of the profile written by the first sign-up. *)
Lemma createdAt_overwritten_by_google_signup :
  field Scenario.gina_signed_up ("users", "uid-gina") "createdAt"
    = Some "2023-11-14T22:13:20.010Z" ∧
  field (world (UserRegistration.handleGoogleSignup Scenario.prompt
                  (Scenario.gina_signed_up, Scenario.user_form)))
    ("users", "uid-gina") "createdAt"
    = Some "2023-11-14T22:13:20.030Z" ∧
  field (world (UserRegistration.handleGoogleSignup Scenario.prompt
                  (Scenario.gina_signed_up, Scenario.user_form)))
    ("users", "uid-gina") "createdAt"
    ≠ field Scenario.gina_signed_up ("users", "uid-gina") "createdAt".
Proof.
  split_and!; [vm_compute; reflexivity | vm_compute; reflexivity |].
  vm_compute. discriminate.
Qed.

(** C2, amended.  In the admin registration flows [createdAt] is written
    by the creation branch only: the federated flow, and the email flow
    run for an identity that already exists, leave the [createdAt] of every
    document as it was.  [restoredAt] is written by the recovery branch and
    by the federated admin flow only: the email flow run for an email the
    provider does not know, and both user registration flows, leave the
    [restoredAt] of every document as it was.  All of this holds whatever
    the services answer. *)
Theorem createdAt_restoredAt_discipline (env : Env) (w : World) (r : DocRef) :
  (∀ c : AdminRegistration.Component,
     field (world (AdminRegistration.handleGoogleRegister env (w, c))) r "createdAt"
       = field w r "createdAt")
  ∧ (∀ (c : AdminRegistration.Component) (a : Account),
       find_account (AdminRegistration.email (AdminRegistration.formData c))
         (accounts w) = Some a ->
       field (world (AdminRegistration.handleSubmit env (w, c))) r "createdAt"
         = field w r "createdAt")
  ∧ (∀ c : AdminRegistration.Component,
       find_account (AdminRegistration.email (AdminRegistration.formData c))
         (accounts w) = None ->
       field (world (AdminRegistration.handleSubmit env (w, c))) r "restoredAt"
         = field w r "restoredAt")
  ∧ (∀ c : UserRegistration.Component,
       field (world (UserRegistration.handleSubmit env (w, c))) r "restoredAt"
         = field w r "restoredAt")
  ∧ (∀ c : UserRegistration.Component,
       field (world (UserRegistration.handleGoogleSignup env (w, c))) r "restoredAt"
         = field w r "restoredAt").
Proof.
  split_and!.
  - intros c. apply google_keeps_createdAt.
  - intros c a. apply recovery_keeps_createdAt.
  - intros c. apply creation_keeps_restoredAt.
  - intros c. apply user_submit_keeps_restoredAt.
  - intros c. apply google_signup_keeps_restoredAt.
Qed.

Lemma createdAt_restoredAt_discipline_witness :
  (* recovery keeps the date of the first provisioning *)
  field (world (AdminRegistration.handleSubmit Scenario.prompt
                  (Scenario.registered,
                   Scenario.admin_form "ADMIN2025" "s3cret!" "s3cret!")))
    ("users", "uid-alice") "createdAt" = Some "2023-11-14T22:13:20.010Z" ∧
  (* creation writes no [restoredAt] *)
  field (world (AdminRegistration.handleSubmit Scenario.prompt
                  (Scenario.empty,
                   Scenario.admin_form "ADMIN2025" "s3cret!" "s3cret!")))
    ("users", "uid-alice") "restoredAt" = None.
Proof.
  pose proof (createdAt_restoredAt_discipline Scenario.prompt Scenario.registered
                ("users", "uid-alice")) as (_ & Hrec & _).
  pose proof (createdAt_restoredAt_discipline Scenario.prompt Scenario.empty
                ("users", "uid-alice")) as (_ & _ & Hnew & _).
  split.
  - rewrite (Hrec (Scenario.admin_form "ADMIN2025" "s3cret!" "s3cret!")
               Scenario.alice_account eq_refl).
    vm_compute. reflexivity.
  - rewrite (Hnew (Scenario.admin_form "ADMIN2025" "s3cret!" "s3cret!") eq_refl).
    reflexivity.
Defined.

(** C7 as the spec states it does not hold: the upsert of the admin flow
    is awaited without a timeout and without a handler of its own.  With a
    store that never acknowledges the write the flow never completes, and
    with a store that rejects it the flow ends in [Failed]. *)
Lemma admin_upsert_unbounded :
  result (AdminRegistration.handleSubmit Scenario.store_silent
            (Scenario.empty, Scenario.admin_form "ADMIN2025" "s3cret!" "s3cret!"))
    = Diverge ∧
  AdminRegistration.terminal
    (AdminRegistration.handleSubmit Scenario.store_down
       (Scenario.empty, Scenario.admin_form "ADMIN2025" "s3cret!" "s3cret!"))
    = Failed "offline".
Proof. split; vm_compute; reflexivity. Qed.

(** C7, amended.  The profile upsert of the user registration flows,
    [saveUserProfile], returns normally within 5000 ms whatever the store
    does: acknowledge, fail, or never answer.  Hence, once the provider has
    created the identity (or the popup has signed it in), the flow calls
    [onRegister] and reports no error, at most 5000 ms after the provider's
    answer. *)
Theorem saveUserProfile_bounded_best_effort
    (env : Env) (w : World) (c : UserRegistration.Component) :
  (∀ (user : User) (isGoogle : bool),
     let out := UserRegistration.saveUserProfile env user isGoogle (w, c) in
     result out = Return tt ∧ (clock (world out) <= clock w + 5000)%N)
  ∧ (∀ tc : N,
       let f := UserRegistration.formData c in
       let out := UserRegistration.handleSubmit env (w, c) in
       UserRegistration.password f = UserRegistration.confirmPassword f ->
       (6 <= String.length (UserRegistration.password f))%nat ->
       find_account (UserRegistration.email f) (accounts w) = None ->
       respond env CreateUser = Reply tc ->
       result out = Return tt ∧ In OnRegister (trace out) ∧
       UserRegistration.error (component out) = "" ∧
       (clock (world out) <= clock w + tc + 5000)%N)
  ∧ (∀ tp : N,
       let out := UserRegistration.handleGoogleSignup env (w, c) in
       respond env Popup = Reply tp ->
       result out = Return tt ∧ In OnRegister (trace out) ∧
       UserRegistration.error (component out) = "" ∧
       (clock (world out) <= clock w + tp + 5000)%N).
Proof.
  split_and!.
  - intros user isGoogle. apply saveUserProfile_returns.
  - intros tc f out. apply user_submit_succeeds.
  - intros tp out. apply google_signup_succeeds.
Qed.

Lemma saveUserProfile_bounded_best_effort_witness :
  respond Scenario.store_silent SetDoc = Silent ∧
  result (UserRegistration.handleGoogleSignup Scenario.store_silent
            (Scenario.empty, Scenario.user_form)) = Return tt ∧
  In OnRegister
    (trace (UserRegistration.handleGoogleSignup Scenario.store_silent
              (Scenario.empty, Scenario.user_form))) ∧
  (clock (world (UserRegistration.handleGoogleSignup Scenario.store_silent
                   (Scenario.empty, Scenario.user_form)))
   <= clock Scenario.empty + 10 + 5000)%N.
Proof.
  pose proof (proj2 (proj2 (saveUserProfile_bounded_best_effort
                              Scenario.store_silent Scenario.empty
                              Scenario.user_form)) 10%N eq_refl)
    as (Hr & Ht & _ & Hc).
  split_and!; [reflexivity | exact Hr | exact Ht | exact Hc].
Defined.

Lemma stored_code_read (w : World) (k fallback other : string) :
  field w admin_config "registrationKey" = Some k -> k ≠ "" ->
  match db w !! admin_config with
  | Some d => or_else (d !! "registrationKey") fallback
  | None => other
  end = k.
Proof.
  unfold field. intros Hk Hne.
  destruct (db w !! admin_config) as [d|]; [|done].
  cbn in Hk. rewrite Hk. cbn. by rewrite bool_decide_eq_false_2.
Qed.

(** C8.  Rotating the registration code is rejected with the validation
    message exactly when the new code has fewer than 5 characters, and then
    nothing is written.  Otherwise, when the store takes the write, the
    code is persisted under [settings/admin_config.registrationKey] and
    both readers, the registration form and the roster, read it back next
    time. *)
Theorem access_code_set_get
    (env : Env) (w : World) (c : AdminManagement.Component) :
  let new := AdminManagement.newValueInput c in
  let out := AdminManagement.handleExecute env (w, c) in
  AdminManagement.actionType c = Some AdminManagement.update_reg_key ->
  (AdminManagement.errorMsg (component out) = "Code is too short (min 5 chars)."
     <-> (String.length new < 5)%nat)
  ∧ ((String.length new < 5)%nat -> world out = w ∧ trace out = [])
  ∧ (∀ tw : N,
       (5 <= String.length new)%nat -> respond env SetDoc = Reply tw ->
       AdminManagement.errorMsg (component out) = "" ∧
       field (world out) admin_config "registrationKey" = Some new ∧
       (∀ (env' : Env) (c' : AdminRegistration.Component) (tg : N),
          respond env' GetDoc = Reply tg ->
          AdminRegistration.systemAdminCode
            (component (AdminRegistration.fetchAdminCode env' (world out, c')))
            = Some new) ∧
       (∀ (env' : Env) (c' : AdminManagement.Component) (tq tg : N),
          respond env' GetDocs = Reply tq -> respond env' GetDoc = Reply tg ->
          AdminManagement.globalRegKey
            (component (AdminManagement.fetchData env' (world out, c'))) = new)).
Proof.
  intros new out Ha. split_and!.
  - split.
    + intros Hmsg. destruct (decide (String.length new < 5)%nat) as [|Hge]; [done|].
      exfalso. revert Hmsg. apply long_code_not_rejected; [done|]. subst new. lia.
    + intros Hlt. by apply short_code_rejected.
  - intros Hlt. by apply short_code_rejected.
  - intros tw Hlen Hw.
    destruct (long_code_persisted env w c tw Ha Hlen Hw) as (_ & Hmsg & _ & Hd & Hf).
    fold out in Hmsg, Hd, Hf. fold new in Hd, Hf.
    pose proof (long_code_nonempty new Hlen) as Hne.
    split_and!; [done | done | |].
    + intros env' c' tg Hg.
      rewrite (registration_reads_code env' (world out) c' tg Hg).
      f_equal. by apply stored_code_read.
    + intros env' c' tq tg Hq Hg.
      rewrite (roster_reads_code env' (world out) c' tq tg Hq Hg).
      by apply stored_code_read.
Qed.

Lemma access_code_set_get_witness :
  (* set("ab") fails and writes nothing *)
  AdminManagement.errorMsg
    (component (AdminManagement.handleExecute Scenario.prompt
                  (Scenario.empty,
                   Scenario.roster AdminManagement.update_reg_key "ab" None)))
    = "Code is too short (min 5 chars)." ∧
  world (AdminManagement.handleExecute Scenario.prompt
           (Scenario.empty,
            Scenario.roster AdminManagement.update_reg_key "ab" None))
    = Scenario.empty ∧
  (* set("abcde") succeeds and the next get() returns it *)
  AdminManagement.errorMsg
    (component (AdminManagement.handleExecute Scenario.prompt
                  (Scenario.empty,
                   Scenario.roster AdminManagement.update_reg_key "abcde" None)))
    = "" ∧
  AdminRegistration.systemAdminCode
    (component
       (AdminRegistration.fetchAdminCode Scenario.prompt
          (world (AdminManagement.handleExecute Scenario.prompt
                    (Scenario.empty,
                     Scenario.roster AdminManagement.update_reg_key "abcde" None)),
           Scenario.admin_form "" "" "")))
    = Some "abcde".
Proof.
  pose proof (access_code_set_get Scenario.prompt Scenario.empty
                (Scenario.roster AdminManagement.update_reg_key "ab" None) eq_refl)
    as (Hiff & Hkeep & _).
  pose proof (access_code_set_get Scenario.prompt Scenario.empty
                (Scenario.roster AdminManagement.update_reg_key "abcde" None) eq_refl)
    as (_ & _ & Hset).
  assert (String.length "ab" < 5)%nat as Hshort by (vm_compute; lia).
  assert (5 <= String.length "abcde")%nat as Hlong by (vm_compute; lia).
  destruct (Hset 10%N Hlong eq_refl) as (Hmsg & _ & Hget & _).
  split_and!.
  - apply (proj2 Hiff Hshort).
  - apply (proj1 (Hkeep Hshort)).
  - exact Hmsg.
  - apply (Hget Scenario.prompt (Scenario.admin_form "" "" "") 10%N eq_refl).
Defined.

(** C10 as the spec states it does not hold: when the configuration record
    exists but holds no registration key, the registration form validates
    against the fixed fallback while the roster displays a placeholder. *)
Lemma access_code_readers_disagree :
  AdminRegistration.systemAdminCode
    (component (AdminRegistration.fetchAdminCode Scenario.prompt
                  (Scenario.config_without_key, Scenario.admin_form "" "" "")))
    = Some "ADMIN2025" ∧
  AdminManagement.globalRegKey
    (component (AdminManagement.fetchData Scenario.prompt
                  (Scenario.config_without_key, AdminManagement.initial)))
    = "Not Set".
Proof. split; vm_compute; reflexivity. Qed.

(** C10, amended.  When both readers get their answers from the store,
    the code the registration form validates against is the one the roster
    displays in two cases: the configuration record is absent (both use the
    fixed fallback), or it holds a non-empty [registrationKey] (both use
    it).  When the record exists and its [registrationKey] is absent or
    empty, the registration form validates against the fixed fallback and
    the roster displays ["Not Set"]. *)
Theorem access_code_readers_agree
    (env_reg env_roster : Env) (w : World)
    (c_reg : AdminRegistration.Component) (c_roster : AdminManagement.Component)
    (tg tq tg' : N) :
  let validated :=
    AdminRegistration.systemAdminCode
      (component (AdminRegistration.fetchAdminCode env_reg (w, c_reg))) in
  let displayed :=
    AdminManagement.globalRegKey
      (component (AdminManagement.fetchData env_roster (w, c_roster))) in
  respond env_reg GetDoc = Reply tg ->
  respond env_roster GetDocs = Reply tq ->
  respond env_roster GetDoc = Reply tg' ->
  (db w !! admin_config = None ->
     validated = Some "ADMIN2025" ∧ displayed = "ADMIN2025")
  ∧ (∀ k, field w admin_config "registrationKey" = Some k -> k ≠ "" ->
       validated = Some k ∧ displayed = k)
  ∧ (∀ d, db w !! admin_config = Some d -> truthy (d !! "registrationKey") = false ->
       validated = Some "ADMIN2025" ∧ displayed = "Not Set").
Proof.
  intros validated displayed Hg Hq Hg'. subst validated displayed.
  rewrite (registration_reads_code env_reg w c_reg tg Hg).
  rewrite (roster_reads_code env_roster w c_roster tq tg' Hq Hg').
  split_and!.
  - by intros ->.
  - intros k Hk Hne.
    by rewrite (stored_code_read w k "ADMIN2025" "ADMIN2025" Hk Hne),
               (stored_code_read w k "Not Set" "ADMIN2025" Hk Hne).
  - intros d -> Ht. by rewrite !or_else_truthy, Ht.
Qed.

Lemma access_code_readers_agree_witness :
  AdminRegistration.systemAdminCode
    (component (AdminRegistration.fetchAdminCode Scenario.prompt
                  (Scenario.empty, Scenario.admin_form "" "" "")))
    = Some (AdminManagement.globalRegKey
              (component (AdminManagement.fetchData Scenario.prompt
                            (Scenario.empty, AdminManagement.initial)))).
Proof.
  destruct (proj1 (access_code_readers_agree Scenario.prompt Scenario.prompt
                     Scenario.empty (Scenario.admin_form "" "" "")
                     AdminManagement.initial 10 10 10 eq_refl eq_refl eq_refl)
              eq_refl) as [Hv Hd].
  rewrite Hv, Hd. reflexivity.
Defined.

(** * Further properties of the components *)

(** ** Shared facts *)

Lemma or_else_Some_empty (s : string) : or_else (Some s) "" = s.
Proof. cbn. by case_bool_decide. Qed.

Lemma find_account_app_new (em : string) (l : list Account) (a : Account) :
  find_account em l = None -> Auth.email (acc_user a) = em ->
  find_account em (l ++ [a]) = Some a.
Proof.
  unfold find_account. intros Hn He. induction l as [|b l IH]; cbn in *.
  - by rewrite bool_decide_eq_true_2.
  - case_bool_decide; [done|]. auto.
Qed.

(** ** User registration *)

Section UserRegistrationMore.
Import UserRegistration.
Variables (env : Env) (w : World) (c : Component).

(** X1.  The user form is validated before anything is sent: passwords
    that differ, and then a password of fewer than six characters, set
    their message and end the run with the world untouched and no request
    issued. *)
Theorem user_validation_is_local :
  let f := formData c in
  let out := handleSubmit env (w, c) in
  (password f ≠ confirmPassword f ->
   error (component out) = "Passwords do not match!" ∧
   world out = w ∧ trace out = [])
  ∧ (password f = confirmPassword f -> (String.length (password f) < 6)%nat ->
     error (component out) = "Password must be at least 6 characters long." ∧
     world out = w ∧ trace out = []).
Proof.
  intros f out. subst f. split; intros; run_as out E.
Qed.

(** X2.  The user form has no recovery path.  When the email already has
    an identity, no submission changes accounts, session or store, and the
    creation attempt is the only request it can send; a submission that
    passes validation and is answered reports that the email is already
    registered. *)
Theorem user_existing_email_not_recovered (a : Account) :
  let f := formData c in
  let out := handleSubmit env (w, c) in
  find_account (email f) (accounts w) = Some a ->
  (same_state w (world out) ∧
   (trace out = [] ∨ trace out = [Remote (ReqCreateUser (email f))]))
  ∧ (∀ tc, password f = confirmPassword f ->
       (6 <= String.length (password f))%nat ->
       respond env CreateUser = Reply tc ->
       error (component out) = "This email is already registered. Please Log In." ∧
       trace out = [Remote (ReqCreateUser (email f))]).
Proof.
  intros f out Ha. subst f. split.
  - run_as out E; observe; split; try done; auto.
  - intros tc Hpw Hlen Hc. run_as out E.
Qed.

(** X3.  The profile write of a submission is best effort.  For a new
    email and valid input, once the identity is created, the write of the
    seven-field profile is requested and [onRegister] is called whatever
    the store does with the write; after the run the store is either as it
    was or holds exactly that profile more.  It holds the profile when the
    write is acknowledged in under 5000 ms, and is as it was when the
    store refuses the write. *)
Theorem user_profile_write_is_best_effort (tc : N) :
  let f := formData c in
  let out := handleSubmit env (w, c) in
  let r := ("users", freshUid env) in
  let profile : Doc :=
    {["uid" := freshUid env;
      "email" := email f;
      "name" := or_else (Some (fullName f)) "User";
      "phone" := phone f;
      "role" := "user";
      "authProvider" := "email";
      "createdAt" := Iso.toISOString (clock w + tc)]} in
  password f = confirmPassword f ->
  (6 <= String.length (password f))%nat ->
  find_account (email f) (accounts w) = None ->
  db w !! r = None ->
  respond env CreateUser = Reply tc ->
  In (Remote (ReqSetDoc r profile)) (trace out) ∧
  In OnRegister (trace out) ∧
  (db (world out) = db w ∨ db (world out) = <[r := profile]> (db w)) ∧
  (∀ tw, respond env SetDoc = Reply tw -> (tw < 5000)%N ->
     db (world out) = <[r := profile]> (db w)) ∧
  (∀ reason tw, respond env SetDoc = Fault reason tw -> db (world out) = db w).
Proof.
  intros f out r profile Hpw Hlen Hnew Hfresh Hc. subst f r profile.
  split_and!.
  - run_as out E; observe; rewrite or_else_Some_empty; right; left; reflexivity.
  - run_as out E; observe; cbn; tauto.
  - run_as out E; observe; rewrite ?Hfresh, ?or_else_Some_empty;
      first [by left | by right].
  - intros tw Hw Hlt. apply N.ltb_lt in Hlt.
    run_as out E; observe.
    rewrite Hfresh, or_else_Some_empty. reflexivity.
  - intros reason tw Hw. run_as out E.
Qed.

(** X4.  Both user flows write the seven fields of [userData] and nothing
    else: any other field of any document is read back as before the
    run. *)
Theorem user_flows_write_seven_fields (r : DocRef) (k : string) :
  k ∉ ["uid"; "email"; "name"; "phone"; "role"; "authProvider"; "createdAt"] ->
  field (world (handleSubmit env (w, c))) r k = field w r k ∧
  field (world (handleGoogleSignup env (w, c))) r k = field w r k.
Proof.
  rewrite !not_elem_of_cons. intros (? & ? & ? & ? & ? & ? & ? & _).
  split.
  - set (out := handleSubmit env (w, c)). run_as out E; frame.
  - set (out := handleGoogleSignup env (w, c)). run_as out E; frame.
Qed.

(** X5.  A Google sign-up whose write lands in time sets [role] to user,
    [authProvider] to google and [createdAt] to the time of the sign-in on
    the profile of the signed-in identity, whatever was stored there, and
    leaves [status] as it was. *)
Theorem google_signup_resets_role (tp tw : N) :
  let out := handleGoogleSignup env (w, c) in
  let r := ("users", Auth.uid (googleUser env)) in
  respond env Popup = Reply tp ->
  respond env SetDoc = Reply tw -> (tw < 5000)%N ->
  field (world out) r "role" = Some "user" ∧
  field (world out) r "authProvider" = Some "google" ∧
  field (world out) r "createdAt" = Some (Iso.toISOString (clock w + tp)) ∧
  field (world out) r "status" = field w r "status".
Proof.
  intros out r Hp Hw Hlt. subst r. apply N.ltb_lt in Hlt.
  run_as out E; unfold field; observe.
  rewrite lookup_insert_eq. cbn -[mergeWrite specified].
  rewrite !mergeWrite_lookup. by split_and!.
Qed.
End UserRegistrationMore.

(** ** The roster: banning and unbanning *)

Lemma insert_status_merge (s : string) (d : Doc) :
  mergeWrite (specified [("status", Some s)]) (Some d) = <["status" := s]> d.
Proof.
  unfold mergeWrite. cbn [specified default from_option].
  rewrite insert_empty. symmetry. apply insert_union_singleton_l.
Qed.

(** Rewrite with the lookups the execution has recorded. *)
Ltac use_lookup :=
  repeat match goal with
         | H : _ !! _ = _ |- _ => rewrite H
         end.

Section RosterProofs.
Import AdminManagement.
Variables (env : Env) (w : World) (c : Component).

(** The message reported when an action on a roster row fails. *)
Lemma ban_applied (row d : Doc) (i : string) (t : N) :
  let out := handleExecute env (w, c) in
  actionType c = Some ban ->
  selectedAdmin c = Some row -> row !! "id" = Some i ->
  db w !! ("users", i) = Some d ->
  respond env UpdateDoc = Reply t ->
  result out = Return tt ∧
  db (world out) = <[("users", i) := <["status" := "banned"]> d]> (db w) ∧
  accounts (world out) = accounts w ∧
  currentUser (world out) = currentUser w ∧
  component out =
    {| admins := map (mark i "banned") (admins c);
       globalRegKey := globalRegKey c; loading := loading c;
       selectedAdmin := None; actionType := None;
       newValueInput := newValueInput c; errorMsg := "" |}.
Proof.
  intros out Ha Hs Hi Hd Ht.
  assert (selectedAdmin c ≫= (.!! "id") = Some i) as Hsel by (by rewrite Hs).
  run_as out E; observe. use_lookup. by rewrite insert_status_merge.
Qed.

Lemma unban_applied (row d : Doc) (i : string) (t : N) :
  let out := handleExecute env (w, c) in
  actionType c = Some unban ->
  selectedAdmin c = Some row -> row !! "id" = Some i ->
  db w !! ("users", i) = Some d ->
  respond env UpdateDoc = Reply t ->
  result out = Return tt ∧
  db (world out) = <[("users", i) := <["status" := "active"]> d]> (db w) ∧
  accounts (world out) = accounts w ∧
  currentUser (world out) = currentUser w ∧
  component out =
    {| admins := map (mark i "active") (admins c);
       globalRegKey := globalRegKey c; loading := loading c;
       selectedAdmin := None; actionType := None;
       newValueInput := newValueInput c; errorMsg := "" |}.
Proof.
  intros out Ha Hs Hi Hd Ht.
  assert (selectedAdmin c ≫= (.!! "id") = Some i) as Hsel by (by rewrite Hs).
  run_as out E; observe. use_lookup. by rewrite insert_status_merge.
Qed.

Lemma roster_action_fails (a : ActionType) :
  let out := handleExecute env (w, c) in
  actionType c = Some a -> a ≠ update_reg_key ->
  respond env UpdateDoc ≠ Silent ->
  (selectedAdmin c ≫= (.!! "id") = None
   ∨ (∃ i, selectedAdmin c ≫= (.!! "id") = Some i ∧ db w !! ("users", i) = None)
   ∨ (∃ reason t, respond env UpdateDoc = Fault reason t)) ->
  result out = Return tt ∧
  same_state w (world out) ∧
  component out =
    {| admins := admins c; globalRegKey := globalRegKey c; loading := loading c;
       selectedAdmin := selectedAdmin c; actionType := Some a;
       newValueInput := newValueInput c;
       errorMsg := match a with
                   | ban => "Database Error: Could not ban user."
                   | _ => "Database Error: Could not unban user."
                   end |}.
Proof.
  intros out Ha Hne Hs [Hsel|[(i & Hsel & Hd)|(reason & t & Hf)]];
    destruct a; try done; run_as out E.
Qed.

Lemma rotation_fails (reason : string) (t : N) :
  let out := handleExecute env (w, c) in
  actionType c = Some update_reg_key ->
  (5 <= String.length (newValueInput c))%nat ->
  respond env SetDoc = Fault reason t ->
  result out = Return tt ∧
  same_state w (world out) ∧
  component out =
    {| admins := admins c; globalRegKey := globalRegKey c; loading := loading c;
       selectedAdmin := selectedAdmin c; actionType := Some update_reg_key;
       newValueInput := newValueInput c;
       errorMsg := "Database Error: Could not update key." |}.
Proof. intros out Ha Hlen Hf. run_as out E. Qed.
End RosterProofs.

(** X6.  Ban and unban of a selected row whose profile exists, when the
    store answers: the profile's [status] becomes banned, respectively
    active, and nothing else in the store, the accounts or the session
    changes; the row is marked in the roster and the modal is closed
    without a message. *)
Theorem ban_changes_status_only
    (env : Env) (w : World) (c : AdminManagement.Component)
    (row d : Doc) (i : string) (t : N) :
  let out := AdminManagement.handleExecute env (w, c) in
  AdminManagement.selectedAdmin c = Some row -> row !! "id" = Some i ->
  db w !! ("users", i) = Some d ->
  respond env UpdateDoc = Reply t ->
  (AdminManagement.actionType c = Some AdminManagement.ban ->
   db (world out) = <[("users", i) := <["status" := "banned"]> d]> (db w) ∧
   accounts (world out) = accounts w ∧ currentUser (world out) = currentUser w ∧
   AdminManagement.admins (component out)
     = map (AdminManagement.mark i "banned") (AdminManagement.admins c) ∧
   AdminManagement.actionType (component out) = None ∧
   AdminManagement.errorMsg (component out) = "")
  ∧ (AdminManagement.actionType c = Some AdminManagement.unban ->
     db (world out) = <[("users", i) := <["status" := "active"]> d]> (db w) ∧
     accounts (world out) = accounts w ∧ currentUser (world out) = currentUser w ∧
     AdminManagement.admins (component out)
       = map (AdminManagement.mark i "active") (AdminManagement.admins c) ∧
     AdminManagement.actionType (component out) = None ∧
     AdminManagement.errorMsg (component out) = "").
Proof.
  intros out Hs Hi Hd Ht. split; intros Ha.
  - destruct (ban_applied env w c row d i t Ha Hs Hi Hd Ht) as (_ & ? & ? & ? & Hc).
    fold out in Hc. by rewrite Hc.
  - destruct (unban_applied env w c row d i t Ha Hs Hi Hd Ht) as (_ & ? & ? & ? & Hc).
    fold out in Hc. by rewrite Hc.
Qed.

(** X7.  Failures of a roster action are surfaced and change nothing
    persistent: a ban or unban with no selected id, on a profile that does
    not exist, or refused by the store, and a key rotation refused by the
    store, return normally, keep the modal open on the same action and show
    that action's database error message. *)
Theorem roster_failures_are_surfaced
    (env : Env) (w : World) (c : AdminManagement.Component) :
  let out := AdminManagement.handleExecute env (w, c) in
  (∀ a, AdminManagement.actionType c = Some a ->
        a ≠ AdminManagement.update_reg_key ->
        respond env UpdateDoc ≠ Silent ->
        (AdminManagement.selectedAdmin c ≫= (.!! "id") = None
         ∨ (∃ i, AdminManagement.selectedAdmin c ≫= (.!! "id") = Some i ∧
                 db w !! ("users", i) = None)
         ∨ (∃ reason t, respond env UpdateDoc = Fault reason t)) ->
        result out = Return tt ∧ same_state w (world out) ∧
        AdminManagement.actionType (component out) = Some a ∧
        AdminManagement.admins (component out) = AdminManagement.admins c ∧
        AdminManagement.errorMsg (component out) =
          match a with
          | AdminManagement.ban => "Database Error: Could not ban user."
          | _ => "Database Error: Could not unban user."
          end)
  ∧ (∀ reason t,
       AdminManagement.actionType c = Some AdminManagement.update_reg_key ->
       (5 <= String.length (AdminManagement.newValueInput c))%nat ->
       respond env SetDoc = Fault reason t ->
       result out = Return tt ∧ same_state w (world out) ∧
       AdminManagement.actionType (component out)
         = Some AdminManagement.update_reg_key ∧
       AdminManagement.globalRegKey (component out) = AdminManagement.globalRegKey c ∧
       AdminManagement.errorMsg (component out)
         = "Database Error: Could not update key.").
Proof.
  intros out. split.
  - intros a Ha Hne Hs H.
    destruct (roster_action_fails env w c a Ha Hne Hs H) as (? & ? & Hc).
    fold out in Hc. by rewrite Hc.
  - intros reason t Ha Hlen Hf.
    destruct (rotation_fails env w c reason t Ha Hlen Hf) as (? & ? & Hc).
    fold out in Hc. by rewrite Hc.
Qed.

(** Reopening the modal on a row, after an action has closed it. *)
Lemma reopen (type : AdminManagement.ActionType) (row : Doc)
    (w : World) (c : AdminManagement.Component) :
  AdminManagement.openModal type (Some row) (w, c) =
    (Return tt,
     (w, {| AdminManagement.admins := AdminManagement.admins c;
            AdminManagement.globalRegKey := AdminManagement.globalRegKey c;
            AdminManagement.loading := AdminManagement.loading c;
            AdminManagement.selectedAdmin := Some row;
            AdminManagement.actionType := Some type;
            AdminManagement.newValueInput := "";
            AdminManagement.errorMsg := "" |}), []).
Proof. reflexivity. Qed.

(** Two actions on the same row, the modal reopened in between. *)
Section BanRoundTrip.
Variables (env1 env2 : Env) (w : World) (c : AdminManagement.Component).
Variables (row d : Doc) (i : string) (t1 t2 : N).
Hypothesis Hban : AdminManagement.actionType c = Some AdminManagement.ban.
Hypothesis Hsel : AdminManagement.selectedAdmin c = Some row.
Hypothesis Hid : row !! "id" = Some i.
Hypothesis Hdoc : db w !! ("users", i) = Some d.
Hypothesis Hr1 : respond env1 UpdateDoc = Reply t1.
Hypothesis Hr2 : respond env2 UpdateDoc = Reply t2.

Let o1 := AdminManagement.handleExecute env1 (w, c).

(** X8.  Ban followed by unban of the same row, both acknowledged, leaves
    the store as it was but for the profile's [status], which is active:
    every other field of the profile is as before, and so is the whole
    store when the profile was active at the start. *)
Theorem ban_unban_round_trip :
  let o2 := AdminManagement.openModal AdminManagement.unban (Some row)
              (world o1, component o1) in
  let o3 := AdminManagement.handleExecute env2 (world o2, component o2) in
  db (world o3) = <[("users", i) := <["status" := "active"]> d]> (db w) ∧
  (d !! "status" = Some "active" -> db (world o3) = db w) ∧
  (∀ k, k ≠ "status" -> field (world o3) ("users", i) k = d !! k).
Proof.
  intros o2 o3.
  destruct (ban_applied env1 w c row d i t1 Hban Hsel Hid Hdoc Hr1)
    as (_ & Hdb1 & _ & _ & _). fold o1 in Hdb1.
  assert (db (world o3) = <[("users", i) := <["status" := "active"]> d]> (db w))
    as Hdb3.
  { subst o3 o2. rewrite reopen.
    set (w1 := world o1) in *. set (c1 := component o1) in *.
    cbn [world component fst snd].
    match goal with
    | |- context [AdminManagement.handleExecute env2 (w1, ?c2)] =>
        destruct (unban_applied env2 w1 c2 row (<["status" := "banned"]> d) i t2)
          as (_ & Hdb & _); [reflexivity | reflexivity | exact Hid | | exact Hr2 |]
    end.
    { by rewrite Hdb1, lookup_insert_eq. }
    rewrite Hdb, Hdb1. by rewrite !insert_insert_eq. }
  split_and!; [done | |].
  - intros Hact. rewrite Hdb3.
    rewrite (insert_id d "status" "active" Hact). by apply insert_id.
  - intros k Hk. unfold field. rewrite Hdb3, lookup_insert_eq. cbn.
    by rewrite lookup_insert_ne.
Qed.

(** X9.  Banning a row that is already banned succeeds and changes nothing
    in the store. *)
Theorem ban_is_idempotent :
  let o2 := AdminManagement.openModal AdminManagement.ban (Some row)
              (world o1, component o1) in
  let o3 := AdminManagement.handleExecute env2 (world o2, component o2) in
  result o3 = Return tt ∧ db (world o3) = db (world o1) ∧
  AdminManagement.errorMsg (component o3) = "".
Proof.
  intros o2 o3.
  destruct (ban_applied env1 w c row d i t1 Hban Hsel Hid Hdoc Hr1)
    as (_ & Hdb1 & _ & _ & _). fold o1 in Hdb1.
  subst o3 o2. rewrite reopen.
  set (w1 := world o1) in *. set (c1 := component o1) in *.
  cbn [world component fst snd].
  match goal with
  | |- context [AdminManagement.handleExecute env2 (w1, ?c2)] =>
      destruct (ban_applied env2 w1 c2 row (<["status" := "banned"]> d) i t2)
        as (Hres & Hdb & _ & _ & Hc);
        [reflexivity | reflexivity | exact Hid | | exact Hr2 |]
  end.
  { by rewrite Hdb1, lookup_insert_eq. }
  split_and!; [done | | by rewrite Hc].
  rewrite Hdb, Hdb1. by rewrite !insert_insert_eq.
Qed.
End BanRoundTrip.

(** ** Admin registration: what a run leaves behind *)

(** An event that is none of those of a concrete trace. *)
Ltac not_in_trace :=
  cbn; let H := fresh in
  intros H; repeat (destruct H as [H|H]; [discriminate|]); exact H.

Section AdminRegistrationMore.
Import AdminRegistration.
Variables (env : Env) (w : World) (c : Component).

Lemma creation_world (tc tw : N) :
  let out := handleSubmit env (w, c) in
  valid_input c ->
  find_account (email (formData c)) (accounts w) = None ->
  respond env CreateUser = Reply tc -> respond env SetDoc = Reply tw ->
  terminal out = Created ∧
  accounts (world out) = accounts w ++ [new_identity env c] ∧
  currentUser (world out) = Some (acc_user (new_identity env c)) ∧
  db (world out) =
    <[("users", freshUid env) :=
        {["uid" := freshUid env; "email" := email (formData c);
          "role" := "admin"; "status" := "active";
          "createdAt" := Iso.toISOString (clock w + tc)]}
        ∪ default ∅ (db w !! ("users", freshUid env))]> (db w).
Proof.
  intros out ([Hl Hc] & Hpw & Hlen) Hnew ? ?. run_as out E.
Qed.

Lemma creation_store_failure (tc : N) (reason : string) (tw : N) :
  let out := handleSubmit env (w, c) in
  valid_input c ->
  find_account (email (formData c)) (accounts w) = None ->
  respond env CreateUser = Reply tc -> respond env SetDoc = Fault reason tw ->
  terminal out = Failed (or_else (Some reason) "Unknown error") ∧
  accounts (world out) = accounts w ++ [new_identity env c] ∧
  currentUser (world out) = Some (acc_user (new_identity env c)) ∧
  db (world out) = db w.
Proof.
  intros out ([Hl Hc] & Hpw & Hlen) Hnew ? ?. run_as out E.
Qed.

(** The recovery branch, for a profile that is not banned: present or
    absent. *)
Lemma recovery_world (a : Account) (tc ts tg tw : N) :
  let out := handleSubmit env (w, c) in
  let r := ("users", Auth.uid (acc_user a)) in
  valid_input c ->
  find_account (email (formData c)) (accounts w) = Some a ->
  password_ok a (password (formData c)) = true ->
  is_banned (db w !! r) = false ->
  respond env CreateUser = Reply tc -> respond env SignIn = Reply ts ->
  respond env GetDoc = Reply tg -> respond env SetDoc = Reply tw ->
  terminal out = Restored ∧
  accounts (world out) = accounts w ∧
  currentUser (world out) = Some (acc_user a) ∧
  db (world out) =
    <[r := {["uid" := Auth.uid (acc_user a);
             "email" := Auth.email (acc_user a);
             "role" := "admin"; "status" := "active";
             "restoredAt" := Iso.toISOString (clock w + tc + ts + tg)]}
           ∪ default ∅ (db w !! r)]> (db w).
Proof.
  intros out r ([Hl Hc] & Hpw & Hlen) Ha Hp Hb ? ? ? ?. subst r.
  run_as out E.
Qed.

(** X10.  On the recovery path, with the right password, a failure of the
    store (the profile cannot be read, or the restoring write is refused)
    is reported as an incorrect password: the identity stays signed in,
    the store is unchanged and [onRegister] is not called. *)
Theorem recovery_store_failure_reported_as_wrong_password
    (a : Account) (tc ts : N) :
  let out := handleSubmit env (w, c) in
  let r := ("users", Auth.uid (acc_user a)) in
  valid_input c ->
  find_account (email (formData c)) (accounts w) = Some a ->
  password_ok a (password (formData c)) = true ->
  respond env CreateUser = Reply tc -> respond env SignIn = Reply ts ->
  (∃ reason t, respond env GetDoc = Fault reason t)
  ∨ (∃ tg reason t, respond env GetDoc = Reply tg ∧ is_banned (db w !! r) = false ∧
                    respond env SetDoc = Fault reason t) ->
  terminal out = IncorrectCredential ∧
  currentUser (world out) = Some (acc_user a) ∧
  db (world out) = db w ∧
  ¬ In OnRegister (trace out).
Proof.
  intros out r ([Hl Hc] & Hpw & Hlen) Ha Hp ? ?
    [(reason & t & Hg)|(tg & reason & t & Hg & Hb & Hw)]; subst r;
    run_as out E; observe; split_and!; try done; not_in_trace.
Qed.

(** X11.  The federated admin flow, with the code accepted, the profile not
    banned and the services answering, ends restored with the identity
    signed in; it merge-writes uid, email, role admin, status active and
    [restoredAt] over whatever was stored, so a first sign-in gets a
    profile without [createdAt]; the provider adds the identity to the
    accounts only when it was not there. *)
Theorem google_register_profile (tp tg tw : N) :
  let out := handleGoogleRegister env (w, c) in
  let u := googleUser env in
  let r := ("users", Auth.uid u) in
  code_accepted c ->
  is_banned (db w !! r) = false ->
  respond env Popup = Reply tp -> respond env GetDoc = Reply tg ->
  respond env SetDoc = Reply tw ->
  terminal out = Restored ∧
  currentUser (world out) = Some u ∧
  db (world out) =
    <[r := {["uid" := Auth.uid u; "email" := Auth.email u;
             "role" := "admin"; "status" := "active";
             "restoredAt" := Iso.toISOString (clock w + tp + tg)]}
           ∪ default ∅ (db w !! r)]> (db w) ∧
  (db w !! r = None -> field (world out) r "createdAt" = None) ∧
  (∀ a, find_uid (Auth.uid u) (accounts w) = Some a ->
        accounts (world out) = accounts w) ∧
  (find_uid (Auth.uid u) (accounts w) = None ->
   accounts (world out)
     = accounts w ++ [{| acc_user := u; acc_password := None |}]).
Proof.
  intros out u r [Hl Hc] Hb ? ? ?. subst u r.
  run_as out E; unfold field; observe; split_and!; try done;
    [intros Hd; by rewrite lookup_insert_eq, Hd
    | by intros a -> | by intros ->].
Qed.
End AdminRegistrationMore.

(** ** Runs in sequence *)

Lemma password_ok_new (env : Env) (c : AdminRegistration.Component) :
  password_ok (new_identity env c)
    (AdminRegistration.password (AdminRegistration.formData c)) = true.
Proof. unfold password_ok. cbn. by apply bool_decide_eq_true. Qed.

(** X12.  Submitting the same valid form twice is safe: the first run
    creates, the second one restores; no second identity is added, no
    other document is touched, and the profile of the first run only gains
    [restoredAt], keeping its [createdAt]. *)
Theorem registration_is_idempotent
    (env1 env2 : Env) (w : World) (c : AdminRegistration.Component)
    (tc tw tc' ts tg tw' : N) :
  let o1 := AdminRegistration.handleSubmit env1 (w, c) in
  let o2 := AdminRegistration.handleSubmit env2 (world o1, c) in
  let r := ("users", freshUid env1) in
  valid_input c ->
  find_account (AdminRegistration.email (AdminRegistration.formData c))
    (accounts w) = None ->
  db w !! r = None ->
  respond env1 CreateUser = Reply tc -> respond env1 SetDoc = Reply tw ->
  respond env2 CreateUser = Reply tc' -> respond env2 SignIn = Reply ts ->
  respond env2 GetDoc = Reply tg -> respond env2 SetDoc = Reply tw' ->
  AdminRegistration.terminal o1 = Created ∧
  AdminRegistration.terminal o2 = Restored ∧
  accounts (world o2) = accounts (world o1) ∧
  (∀ r', r' ≠ r -> db (world o2) !! r' = db w !! r') ∧
  db (world o2) !! r =
    Some (<["restoredAt" := Iso.toISOString (clock (world o1) + tc' + ts + tg)]>
            (default ∅ (db (world o1) !! r))) ∧
  field (world o2) r "createdAt" = field (world o1) r "createdAt" ∧
  field (world o1) r "createdAt" = Some (Iso.toISOString (clock w + tc)).
Proof.
  intros o1 o2 r Hv Hnew Hfresh Hc1 Hw1 Hc2 Hs2 Hg2 Hw2.
  destruct (creation_world env1 w c tc tw Hv Hnew Hc1 Hw1)
    as (Ht1 & Hacc1 & _ & Hdb1).
  fold o1 in Ht1, Hacc1, Hdb1. fold r in Hdb1. rewrite Hfresh in Hdb1.
  cbn [default from_option] in Hdb1. rewrite (right_id_L ∅ (∪)) in Hdb1.
  assert (find_account (AdminRegistration.email (AdminRegistration.formData c))
            (accounts (world o1)) = Some (new_identity env1 c)) as Ha.
  { rewrite Hacc1. by apply find_account_app_new. }
  assert (db (world o1) !! r =
            Some {["uid" := freshUid env1;
                   "email" := AdminRegistration.email (AdminRegistration.formData c);
                   "role" := "admin"; "status" := "active";
                   "createdAt" := Iso.toISOString (clock w + tc)]}) as Hd1
    by (by rewrite Hdb1, lookup_insert_eq).
  destruct (recovery_world env2 (world o1) c (new_identity env1 c) tc' ts tg tw'
              Hv Ha (password_ok_new env1 c))
    as (Ht2 & Hacc2 & _ & Hdb2); try done.
  { cbn [acc_user new_identity Auth.uid]. fold r. by rewrite Hd1. }
  fold o2 in Ht2, Hacc2, Hdb2.
  cbn [acc_user new_identity Auth.uid Auth.email] in Hdb2. fold r in Hdb2.
  rewrite Hd1 in Hdb2. cbn [default from_option] in Hdb2.
  split_and!; try done.
  - intros r' Hr. by rewrite Hdb2, Hdb1, !lookup_insert_ne.
  - by rewrite Hdb2, lookup_insert_eq, Hd1.
  - unfold field. by rewrite Hdb2, lookup_insert_eq, Hd1.
  - unfold field. by rewrite Hd1.
Qed.

(** X13.  An identity left without a profile is healed by a second
    submission: when the store refuses the write of a creation, the
    identity exists and the store is unchanged; the same form submitted
    again, once the store answers, takes the recovery path and writes the
    profile, with [restoredAt] and without [createdAt]. *)
Theorem orphan_identity_is_healed
    (env1 env2 : Env) (w : World) (c : AdminRegistration.Component)
    (tc : N) (reason : string) (tw tc' ts tg tw' : N) :
  let o1 := AdminRegistration.handleSubmit env1 (w, c) in
  let o2 := AdminRegistration.handleSubmit env2 (world o1, c) in
  let r := ("users", freshUid env1) in
  valid_input c ->
  find_account (AdminRegistration.email (AdminRegistration.formData c))
    (accounts w) = None ->
  db w !! r = None ->
  respond env1 CreateUser = Reply tc -> respond env1 SetDoc = Fault reason tw ->
  respond env2 CreateUser = Reply tc' -> respond env2 SignIn = Reply ts ->
  respond env2 GetDoc = Reply tg -> respond env2 SetDoc = Reply tw' ->
  AdminRegistration.terminal o1 = Failed (or_else (Some reason) "Unknown error") ∧
  find_account (AdminRegistration.email (AdminRegistration.formData c))
    (accounts (world o1)) = Some (new_identity env1 c) ∧
  db (world o1) = db w ∧
  AdminRegistration.terminal o2 = Restored ∧
  accounts (world o2) = accounts (world o1) ∧
  db (world o2) !! r =
    Some {["uid" := freshUid env1;
           "email" := AdminRegistration.email (AdminRegistration.formData c);
           "role" := "admin"; "status" := "active";
           "restoredAt" := Iso.toISOString (clock (world o1) + tc' + ts + tg)]}.
Proof.
  intros o1 o2 r Hv Hnew Hfresh Hc1 Hw1 Hc2 Hs2 Hg2 Hw2.
  destruct (creation_store_failure env1 w c tc reason tw Hv Hnew Hc1 Hw1)
    as (Herr & Hacc1 & _ & Hdb1).
  fold o1 in Herr, Hacc1, Hdb1.
  assert (find_account (AdminRegistration.email (AdminRegistration.formData c))
            (accounts (world o1)) = Some (new_identity env1 c)) as Ha.
  { rewrite Hacc1. by apply find_account_app_new. }
  destruct (recovery_world env2 (world o1) c (new_identity env1 c) tc' ts tg tw'
              Hv Ha (password_ok_new env1 c))
    as (Ht2 & Hacc2 & _ & Hdb2); try done.
  { cbn [acc_user new_identity Auth.uid]. fold r. by rewrite Hdb1, Hfresh. }
  fold o2 in Ht2, Hacc2, Hdb2.
  cbn [acc_user new_identity Auth.uid Auth.email] in Hdb2. fold r in Hdb2.
  rewrite Hdb1, Hfresh in Hdb2. cbn [default from_option] in Hdb2.
  split_and!; try done.
  rewrite Hdb2, lookup_insert_eq. by rewrite (right_id_L ∅ (∪)).
Qed.

(** X14.  The roster's ban is what the registration form then enforces.
    After a ban of a row, a submission with that identity's own email and
    password is denied and signed out, and the store stays as the ban left
    it; after an unban the same submission restores the profile, signed in
    and active. *)
Theorem ban_gates_recovery
    (env1 env2 : Env) (w : World)
    (cm : AdminManagement.Component) (c : AdminRegistration.Component)
    (a : Account) (row d : Doc) (t tc ts tg to tw : N) :
  let i := Auth.uid (acc_user a) in
  let o1 := AdminManagement.handleExecute env1 (w, cm) in
  let o2 := AdminRegistration.handleSubmit env2 (world o1, c) in
  AdminManagement.selectedAdmin cm = Some row -> row !! "id" = Some i ->
  db w !! ("users", i) = Some d ->
  respond env1 UpdateDoc = Reply t ->
  valid_input c ->
  find_account (AdminRegistration.email (AdminRegistration.formData c))
    (accounts w) = Some a ->
  password_ok a (AdminRegistration.password (AdminRegistration.formData c)) = true ->
  respond env2 CreateUser = Reply tc -> respond env2 SignIn = Reply ts ->
  respond env2 GetDoc = Reply tg -> respond env2 SignOut = Reply to ->
  respond env2 SetDoc = Reply tw ->
  (AdminManagement.actionType cm = Some AdminManagement.ban ->
   AdminRegistration.terminal o2 = Denied ∧
   currentUser (world o2) = None ∧
   db (world o2) = <[("users", i) := <["status" := "banned"]> d]> (db w))
  ∧ (AdminManagement.actionType cm = Some AdminManagement.unban ->
     AdminRegistration.terminal o2 = Restored ∧
     currentUser (world o2) = Some (acc_user a) ∧
     field (world o2) ("users", i) "status" = Some "active").
Proof.
  intros i o1 o2 Hsel Hid Hd Hu Hv Ha Hp Hc Hs Hg Ho Hw. split; intros Hact.
  - destruct (ban_applied env1 w cm row d i t Hact Hsel Hid Hd Hu)
      as (_ & Hdb1 & Hacc1 & _). fold o1 in Hdb1, Hacc1.
    rewrite <- Hacc1 in Ha.
    assert (banned_profile (world o1) (Auth.uid (acc_user a))) as Hb.
    { unfold banned_profile, field. fold i. rewrite Hdb1, lookup_insert_eq.
      cbn. by rewrite lookup_insert_eq. }
    destruct (banned_email_denied env2 (world o1) c a tc ts tg to Hv Ha Hp Hb
                Hc Hs Hg Ho) as (Ht & _ & Hcu).
    destruct (banned_email_never_restored env2 (world o1) c a Ha Hb)
      as (_ & _ & Hdb2 & _).
    fold o2 in Ht, Hcu, Hdb2. by rewrite Hdb2.
  - destruct (unban_applied env1 w cm row d i t Hact Hsel Hid Hd Hu)
      as (_ & Hdb1 & Hacc1 & _). fold o1 in Hdb1, Hacc1.
    rewrite <- Hacc1 in Ha.
    destruct (recovery_world env2 (world o1) c a tc ts tg tw Hv Ha Hp)
      as (Ht & _ & Hcu & Hdb2); try done.
    { fold i. rewrite Hdb1, lookup_insert_eq. cbn.
      apply bool_decide_eq_false. by rewrite lookup_insert_eq. }
    fold o2 in Ht, Hcu, Hdb2. split_and!; try done.
    unfold field. rewrite Hdb2. fold i. rewrite lookup_insert_eq. cbn.
    by apply lookup_union_Some_l.
Qed.

(** ** What no run does *)

(** A merge-write never removes a document. *)
Ltac still_there :=
  observe; try done;
  rewrite lookup_insert_is_Some'; by right.

(** X15.  No handler of the three components deletes a document: one that
    is in the store before a run of either registration form or of a
    roster action is in the store after it. *)
Theorem no_handler_deletes_a_document (env : Env) (w : World) (r : DocRef) :
  is_Some (db w !! r) ->
  (∀ c, is_Some (db (world (UserRegistration.handleSubmit env (w, c))) !! r)) ∧
  (∀ c, is_Some (db (world (UserRegistration.handleGoogleSignup env (w, c))) !! r)) ∧
  (∀ c, is_Some (db (world (AdminRegistration.handleSubmit env (w, c))) !! r)) ∧
  (∀ c, is_Some (db (world (AdminRegistration.handleGoogleRegister env (w, c))) !! r)) ∧
  (∀ c, is_Some (db (world (AdminManagement.handleExecute env (w, c))) !! r)).
Proof.
  intros Hr. split_and!; intros c.
  - set (out := UserRegistration.handleSubmit env (w, c)). run_as out E; still_there.
  - set (out := UserRegistration.handleGoogleSignup env (w, c)).
    run_as out E; still_there.
  - set (out := AdminRegistration.handleSubmit env (w, c)). run_as out E; still_there.
  - set (out := AdminRegistration.handleGoogleRegister env (w, c)).
    run_as out E; still_there.
  - set (out := AdminManagement.handleExecute env (w, c)). run_as out E; still_there.
Qed.

(** X16.  A run of either admin flow changes no document but the profile
    of the identity it is about: that of the existing account with the
    form's email, or of the identity about to be created, for the email
    flow; that of the popup's identity for the federated flow.  The
    access-code record in particular is never written by them. *)
Theorem registration_writes_own_profile_only
    (env : Env) (w : World) (c : AdminRegistration.Component) (r : DocRef) :
  ((∀ a, find_account (AdminRegistration.email (AdminRegistration.formData c))
           (accounts w) = Some a -> r ≠ ("users", Auth.uid (acc_user a))) ->
   (find_account (AdminRegistration.email (AdminRegistration.formData c))
      (accounts w) = None -> r ≠ ("users", freshUid env)) ->
   db (world (AdminRegistration.handleSubmit env (w, c))) !! r = db w !! r)
  ∧ (r ≠ ("users", Auth.uid (googleUser env)) ->
     db (world (AdminRegistration.handleGoogleRegister env (w, c))) !! r = db w !! r).
Proof.
  split.
  - intros Hold Hnew. set (out := AdminRegistration.handleSubmit env (w, c)).
    run_as out E; observe; try done;
      rewrite lookup_insert_ne; try done; intros <-;
      first [by eapply Hold | by apply Hnew].
  - intros Hg. set (out := AdminRegistration.handleGoogleRegister env (w, c)).
    run_as out E; observe; try done; by rewrite lookup_insert_ne.
Qed.

(** X18.  Neither admin flow throws, and the processing flag is released
    on every run that completes: started with the flag down, a run ends
    with it up exactly when it is still waiting on a service that never
    answers. *)
Theorem processing_flag_is_released
    (env : Env) (w : World) (c : AdminRegistration.Component) :
  AdminRegistration.loading c = false ->
  (∀ e, result (AdminRegistration.handleSubmit env (w, c)) ≠ Throw e) ∧
  (AdminRegistration.loading (component (AdminRegistration.handleSubmit env (w, c)))
     = true
   <-> result (AdminRegistration.handleSubmit env (w, c)) = Diverge) ∧
  (∀ e, result (AdminRegistration.handleGoogleRegister env (w, c)) ≠ Throw e) ∧
  (AdminRegistration.loading
     (component (AdminRegistration.handleGoogleRegister env (w, c))) = true
   <-> result (AdminRegistration.handleGoogleRegister env (w, c)) = Diverge).
Proof.
  intros Hl. split_and!.
  - intros e. set (out := AdminRegistration.handleSubmit env (w, c)). run_as out E.
  - set (out := AdminRegistration.handleSubmit env (w, c)).
    run_as out E; observe; split; congruence.
  - intros e. set (out := AdminRegistration.handleGoogleRegister env (w, c)).
    run_as out E.
  - set (out := AdminRegistration.handleGoogleRegister env (w, c)).
    run_as out E; observe; split; congruence.
Qed.

(** ** The access code before a registration *)

Lemma truthy_default (o : option string) :
  truthy o = true -> default "" o ≠ "".
Proof. destruct o as [s|]; [|done]. cbn. by intros ?%bool_decide_eq_true. Qed.

(** X19.  Once the access code has been fetched it is never empty: when
    the store answers at all (a record, no record, or a failure),
    [fetchAdminCode] returns with the loading flag down, the form
    untouched, nothing persistent changed and a non-empty code held, so a
    form whose code field is empty is rejected by both flows. *)
Theorem fetched_code_is_never_empty
    (env env' : Env) (w : World) (c : AdminRegistration.Component) :
  let o := AdminRegistration.fetchAdminCode env (w, c) in
  respond env GetDoc ≠ Silent ->
  result o = Return tt ∧
  AdminRegistration.loadingCode (component o) = false ∧
  AdminRegistration.formData (component o) = AdminRegistration.formData c ∧
  same_state w (world o) ∧
  (∃ k, AdminRegistration.systemAdminCode (component o) = Some k ∧ k ≠ "") ∧
  (AdminRegistration.adminCode (AdminRegistration.formData c) = "" ->
   AdminRegistration.terminal
     (AdminRegistration.handleSubmit env' (world o, component o)) = CodeMismatch ∧
   AdminRegistration.terminal
     (AdminRegistration.handleGoogleRegister env' (world o, component o))
     = CodeMismatch).
Proof.
  intros o Hs.
  assert (result o = Return tt ∧
          AdminRegistration.loadingCode (component o) = false ∧
          AdminRegistration.formData (component o) = AdminRegistration.formData c ∧
          same_state w (world o) ∧
          ∃ k, AdminRegistration.systemAdminCode (component o) = Some k ∧ k ≠ "")
    as (Hr & Hl & Hf & Hw & k & Hk & Hne).
  { run_as o E; observe; split_and!; try done; eexists; (split; [reflexivity|]);
      try done.
    by apply truthy_default. }
  split_and!; try done; [by exists k|].
  intros Hempty.
  destruct o as [[res [w1 c1]] tr]. cbn [world component fst snd] in *.
  assert (Some (AdminRegistration.adminCode (AdminRegistration.formData c1))
            ≠ AdminRegistration.systemAdminCode c1) as Hmis.
  { rewrite Hf, Hempty, Hk. congruence. }
  split.
  - set (out := AdminRegistration.handleSubmit env' (w1, c1)). run_as out E.
  - set (out := AdminRegistration.handleGoogleRegister env' (w1, c1)). run_as out E.
Qed.

(** X20.  While the code is loading nothing happens: a fetch that is never
    answered leaves the component as it was, and with [loadingCode] up
    both flows return at once, with the world untouched, no request, and
    nothing reported. *)
Theorem nothing_happens_while_the_code_loads
    (env : Env) (w : World) (c : AdminRegistration.Component) :
  (respond env GetDoc = Silent ->
   result (AdminRegistration.fetchAdminCode env (w, c)) = Diverge ∧
   component (AdminRegistration.fetchAdminCode env (w, c)) = c)
  ∧ (AdminRegistration.loadingCode c = true ->
     world (AdminRegistration.handleSubmit env (w, c)) = w ∧
     trace (AdminRegistration.handleSubmit env (w, c)) = [] ∧
     AdminRegistration.terminal (AdminRegistration.handleSubmit env (w, c))
       = NoOutcome ∧
     world (AdminRegistration.handleGoogleRegister env (w, c)) = w ∧
     trace (AdminRegistration.handleGoogleRegister env (w, c)) = [] ∧
     AdminRegistration.terminal (AdminRegistration.handleGoogleRegister env (w, c))
       = NoOutcome).
Proof.
  split.
  - intros Hs. set (out := AdminRegistration.fetchAdminCode env (w, c)).
    run_as out E.
  - intros Hl. split_and!.
    1-3: set (out := AdminRegistration.handleSubmit env (w, c)); run_as out E.
    all: set (out := AdminRegistration.handleGoogleRegister env (w, c)); run_as out E.
Qed.

(** X21.  The federated flow is gated by the access code as the email flow
    is: with a code that differs from the fetched one it is rejected
    before anything is sent, and the popup is opened only when the code
    has been fetched and equals the one entered. *)
Theorem federated_flow_is_gated_by_the_code
    (env : Env) (w : World) (c : AdminRegistration.Component) :
  let out := AdminRegistration.handleGoogleRegister env (w, c) in
  (AdminRegistration.loadingCode c = false ->
   Some (AdminRegistration.adminCode (AdminRegistration.formData c))
     ≠ AdminRegistration.systemAdminCode c ->
   AdminRegistration.terminal out = CodeMismatch ∧ world out = w ∧ trace out = [])
  ∧ (In (Remote ReqPopup) (trace out) -> code_accepted c).
Proof.
  intros out. split.
  - intros Hl Hc. run_as out E.
  - unfold code_accepted. run_as out E; observe; cbn; try tauto.
    all: intros _; split; [done|]; by apply dec_stable.
Qed.

(** ** Loading the roster *)

Section RosterFetch.
Import AdminManagement.
Variables (env : Env) (w : World) (c : Component).

(** X22.  When the query is answered and the key lookup settles,
    [fetchData] returns with the loading flag down, changes nothing
    persistent, and the roster lists exactly the stored profiles whose
    [role] is admin, each with its document id added as [id]. *)
Theorem roster_lists_exactly_the_admins (tq : N) :
  let out := fetchData env (w, c) in
  respond env GetDocs = Reply tq -> respond env GetDoc ≠ Silent ->
  result out = Return tt ∧ loading (component out) = false ∧
  same_state w (world out) ∧
  ∀ row, row ∈ admins (component out) <->
         ∃ i d, db w !! ("users", i) = Some d ∧ d !! "role" = Some "admin" ∧
                row = d ∪ {["id" := i]}.
Proof.
  intros out Hq Hg.
  assert (∀ row,
            row ∈ map (λ '(i, d), d ∪ ({["id" := i]} : Doc))
                    (omap (λ '(r, d),
                             if bool_decide (r.1 = "users")
                                && bool_decide (d !! "role" = Some "admin")
                             then Some (r.2, d) else None)
                          (map_to_list (db w)))
            <-> ∃ i d, db w !! ("users", i) = Some d ∧ d !! "role" = Some "admin" ∧
                       row = d ∪ {["id" := i]}) as Hrows.
  { intros row. rewrite list_elem_of_fmap. split.
    - intros ([i d] & -> & Hin). apply list_elem_of_omap in Hin as ([[col j] d'] & Hin & Hsel).
      apply elem_of_map_to_list in Hin. cbn in Hsel.
      repeat case_bool_decide; cbn in Hsel; simplify_eq. by exists i, d.
    - intros (i & d & Hd & Hrole & ->). exists (i, d). split; [done|].
      apply list_elem_of_omap. exists (("users", i), d). split.
      + by apply elem_of_map_to_list.
      + cbn. by rewrite !bool_decide_eq_true_2. }
  run_as out E; observe; split_and!; try done.
Qed.

(** X23.  A roster fetch that fails keeps the view: when the query is
    refused, roster and key stay as they were; when the key lookup is
    refused, the key stays; both return normally with the loading flag
    down and nothing persistent changed.  A query that is never answered
    leaves the component as it was. *)
Theorem roster_fetch_failure_keeps_the_view :
  let out := fetchData env (w, c) in
  (∀ reason t, respond env GetDocs = Fault reason t ->
     result out = Return tt ∧ same_state w (world out) ∧
     admins (component out) = admins c ∧
     globalRegKey (component out) = globalRegKey c ∧
     loading (component out) = false)
  ∧ (∀ tq reason t, respond env GetDocs = Reply tq ->
       respond env GetDoc = Fault reason t ->
       result out = Return tt ∧ same_state w (world out) ∧
       globalRegKey (component out) = globalRegKey c ∧
       loading (component out) = false)
  ∧ (respond env GetDocs = Silent ->
     result out = Diverge ∧ component out = c).
Proof.
  intros out. split_and!; intros; run_as out E.
Qed.
End RosterFetch.

(** ** What an outcome guarantees *)

(** On a path that ends in [Created] or [Restored] ([Ht]), the profile of
    the signed-in identity is that of an active admin. *)
Ltac active_admin Ht :=
  first
    [ by (cbn in Ht; destruct Ht)
    | clear Ht; eexists; (split; [reflexivity|]);
      unfold field; observe; rewrite lookup_insert_eq; cbn -[mergeWrite specified];
      by rewrite !mergeWrite_lookup ].

(** X24.  A successful outcome means the profile is in place: whenever the
    email flow ends created or restored, some identity is signed in and
    its stored profile has role admin and status active; whenever the
    federated flow ends restored, the same holds for the popup's
    identity. *)
Theorem admin_success_means_profile_written
    (env : Env) (w : World) (c : AdminRegistration.Component) :
  (AdminRegistration.terminal (AdminRegistration.handleSubmit env (w, c)) = Created
   ∨ AdminRegistration.terminal (AdminRegistration.handleSubmit env (w, c)) = Restored ->
   ∃ u, currentUser (world (AdminRegistration.handleSubmit env (w, c))) = Some u ∧
        field (world (AdminRegistration.handleSubmit env (w, c)))
          ("users", Auth.uid u) "role" = Some "admin" ∧
        field (world (AdminRegistration.handleSubmit env (w, c)))
          ("users", Auth.uid u) "status" = Some "active")
  ∧ (AdminRegistration.terminal (AdminRegistration.handleGoogleRegister env (w, c))
       = Restored ->
     currentUser (world (AdminRegistration.handleGoogleRegister env (w, c)))
       = Some (googleUser env) ∧
     field (world (AdminRegistration.handleGoogleRegister env (w, c)))
       ("users", Auth.uid (googleUser env)) "role" = Some "admin" ∧
     field (world (AdminRegistration.handleGoogleRegister env (w, c)))
       ("users", Auth.uid (googleUser env)) "status" = Some "active").
Proof.
  split.
  - set (out := AdminRegistration.handleSubmit env (w, c)).
    run_as out E; observe; intros Ht; active_admin Ht.
  - set (out := AdminRegistration.handleGoogleRegister env (w, c)).
    run_as out E; observe; intros Ht;
      first
        [ by cbn in Ht
        | clear Ht; (split; [reflexivity|]);
          unfold field; observe; rewrite lookup_insert_eq;
          cbn -[mergeWrite specified]; by rewrite !mergeWrite_lookup ].
Qed.

(** X25.  A denied run leaves nobody signed in and the store as it was,
    in both admin flows. *)
Theorem denied_means_signed_out
    (env : Env) (w : World) (c : AdminRegistration.Component) :
  (AdminRegistration.terminal (AdminRegistration.handleSubmit env (w, c)) = Denied ->
   currentUser (world (AdminRegistration.handleSubmit env (w, c))) = None ∧
   db (world (AdminRegistration.handleSubmit env (w, c))) = db w)
  ∧ (AdminRegistration.terminal (AdminRegistration.handleGoogleRegister env (w, c))
       = Denied ->
     currentUser (world (AdminRegistration.handleGoogleRegister env (w, c))) = None ∧
     db (world (AdminRegistration.handleGoogleRegister env (w, c))) = db w).
Proof.
  split.
  - set (out := AdminRegistration.handleSubmit env (w, c)).
    run_as out E; observe; cbn; done.
  - set (out := AdminRegistration.handleGoogleRegister env (w, c)).
    run_as out E; observe; cbn; done.
Qed.

(** ** Failures of the identity service *)

(** X26.  The store cannot hang a user flow.  Neither user flow throws; a
    submission waits for ever exactly when its input is valid and the
    creation of the identity is never answered, a Google sign-up exactly
    when the popup is never answered; and, started with the loading flag
    down, a run ends with it up exactly in those cases. *)
Theorem user_flows_hang_only_on_auth
    (env : Env) (w : World) (c : UserRegistration.Component) :
  UserRegistration.loading c = false ->
  (∀ e, result (UserRegistration.handleSubmit env (w, c)) ≠ Throw e) ∧
  (result (UserRegistration.handleSubmit env (w, c)) = Diverge
   <-> UserRegistration.password (UserRegistration.formData c)
         = UserRegistration.confirmPassword (UserRegistration.formData c) ∧
       (6 <= String.length (UserRegistration.password (UserRegistration.formData c)))%nat ∧
       respond env CreateUser = Silent) ∧
  (UserRegistration.loading (component (UserRegistration.handleSubmit env (w, c)))
     = true
   <-> result (UserRegistration.handleSubmit env (w, c)) = Diverge) ∧
  (∀ e, result (UserRegistration.handleGoogleSignup env (w, c)) ≠ Throw e) ∧
  (result (UserRegistration.handleGoogleSignup env (w, c)) = Diverge
   <-> respond env Popup = Silent) ∧
  (UserRegistration.loading (component (UserRegistration.handleGoogleSignup env (w, c)))
     = true
   <-> result (UserRegistration.handleGoogleSignup env (w, c)) = Diverge).
Proof.
  intros Hl. split_and!.
  - intros e. set (out := UserRegistration.handleSubmit env (w, c)). run_as out E.
  - set (out := UserRegistration.handleSubmit env (w, c)).
    run_as out E; observe;
      (split;
       [ intros ?; first [done | split_and!; first [done | lia | by apply dec_stable]]
       | intros (? & ? & ?); first [done | lia] ]).
  - set (out := UserRegistration.handleSubmit env (w, c)).
    run_as out E; observe; split; congruence.
  - intros e. set (out := UserRegistration.handleGoogleSignup env (w, c)).
    run_as out E.
  - set (out := UserRegistration.handleGoogleSignup env (w, c)).
    run_as out E; observe; split; congruence.
  - set (out := UserRegistration.handleGoogleSignup env (w, c)).
    run_as out E; observe; split; congruence.
Qed.

(** X27.  A failure of the identity service is reported by the user flows
    with its own message, prefixed by the flow's text; nothing persistent
    changes, and the failed call is the only request sent: no profile
    write is attempted and [onRegister] is not called. *)
Theorem user_auth_failure_is_reported
    (env : Env) (w : World) (c : UserRegistration.Component) (reason : string) (t : N) :
  (UserRegistration.password (UserRegistration.formData c)
     = UserRegistration.confirmPassword (UserRegistration.formData c) ->
   (6 <= String.length (UserRegistration.password (UserRegistration.formData c)))%nat ->
   respond env CreateUser = Fault reason t ->
   result (UserRegistration.handleSubmit env (w, c)) = Return tt ∧
   UserRegistration.error (component (UserRegistration.handleSubmit env (w, c)))
     = "Error: " +:+ reason ∧
   same_state w (world (UserRegistration.handleSubmit env (w, c))) ∧
   trace (UserRegistration.handleSubmit env (w, c))
     = [Remote (ReqCreateUser (UserRegistration.email (UserRegistration.formData c)))])
  ∧ (respond env Popup = Fault reason t ->
     result (UserRegistration.handleGoogleSignup env (w, c)) = Return tt ∧
     UserRegistration.error (component (UserRegistration.handleGoogleSignup env (w, c)))
       = "Google sign-up failed: " +:+ reason ∧
     same_state w (world (UserRegistration.handleGoogleSignup env (w, c))) ∧
     trace (UserRegistration.handleGoogleSignup env (w, c)) = [Remote ReqPopup]).
Proof.
  split.
  - intros Hpw Hlen Hf. set (out := UserRegistration.handleSubmit env (w, c)).
    run_as out E.
  - intros Hf. set (out := UserRegistration.handleGoogleSignup env (w, c)).
    run_as out E.
Qed.

(** X28.  In the admin flows a failure of the identity service other than
    an email in use does not start a recovery: the message of the failure
    is reported after the flow's text, the processing flag is released,
    nothing persistent changes, and the failed call is the only request
    sent. *)
Theorem admin_auth_failure_skips_recovery
    (env : Env) (w : World) (c : AdminRegistration.Component) (reason : string) (t : N) :
  (valid_input c ->
   respond env CreateUser = Fault reason t ->
   AdminRegistration.error (component (AdminRegistration.handleSubmit env (w, c)))
     = "Failed to register. " +:+ or_else (Some reason) "Unknown error" ∧
   AdminRegistration.loading (component (AdminRegistration.handleSubmit env (w, c)))
     = false ∧
   same_state w (world (AdminRegistration.handleSubmit env (w, c))) ∧
   trace (AdminRegistration.handleSubmit env (w, c))
     = [Remote (ReqCreateUser
                  (AdminRegistration.email (AdminRegistration.formData c)))])
  ∧ (code_accepted c ->
     respond env Popup = Fault reason t ->
     AdminRegistration.error
       (component (AdminRegistration.handleGoogleRegister env (w, c)))
       = "Google registration failed. " +:+ or_else (Some reason) "Unknown error" ∧
     AdminRegistration.loading
       (component (AdminRegistration.handleGoogleRegister env (w, c))) = false ∧
     same_state w (world (AdminRegistration.handleGoogleRegister env (w, c))) ∧
     trace (AdminRegistration.handleGoogleRegister env (w, c)) = [Remote ReqPopup]).
Proof.
  split.
  - intros ([Hl Hc] & Hpw & Hlen) Hf.
    set (out := AdminRegistration.handleSubmit env (w, c)). run_as out E.
  - intros [Hl Hc] Hf.
    set (out := AdminRegistration.handleGoogleRegister env (w, c)). run_as out E.
Qed.

(** ** The further properties on concrete runs *)

Lemma user_validation_is_local_witness :
  UserRegistration.error
    (component (UserRegistration.handleSubmit Scenario.prompt
                  (Scenario.empty, Cases.signup "abc" "abd")))
    = "Passwords do not match!" ∧
  UserRegistration.error
    (component (UserRegistration.handleSubmit Scenario.prompt
                  (Scenario.empty, Cases.signup "abc" "abc")))
    = "Password must be at least 6 characters long." ∧
  trace (UserRegistration.handleSubmit Scenario.prompt
           (Scenario.empty, Cases.signup "abc" "abc")) = [].
Proof.
  pose proof (user_validation_is_local Scenario.prompt Scenario.empty
                (Cases.signup "abc" "abd")) as [H1 _].
  pose proof (user_validation_is_local Scenario.prompt Scenario.empty
                (Cases.signup "abc" "abc")) as [_ H2].
  split_and!.
  - apply H1. vm_compute. discriminate.
  - apply H2; [reflexivity | vm_compute; lia].
  - apply H2; [reflexivity | vm_compute; lia].
Defined.

Lemma user_existing_email_not_recovered_witness :
  find_account "alice@cvfms.lk" (accounts Cases.user_registered)
    = Some Scenario.alice_account ∧
  UserRegistration.error
    (component (UserRegistration.handleSubmit Scenario.prompt
                  (Cases.user_registered, Cases.signup "s3cret!" "s3cret!")))
    = "This email is already registered. Please Log In." ∧
  same_state Cases.user_registered
    (world (UserRegistration.handleSubmit Scenario.prompt
              (Cases.user_registered, Cases.signup "s3cret!" "s3cret!"))).
Proof.
  assert (find_account "alice@cvfms.lk" (accounts Cases.user_registered)
          = Some Scenario.alice_account) as Ha by reflexivity.
  pose proof (user_existing_email_not_recovered Scenario.prompt
                Cases.user_registered (Cases.signup "s3cret!" "s3cret!")
                Scenario.alice_account Ha) as [[Hs _] Hm].
  split_and!; [exact Ha | | exact Hs].
  apply (Hm 10%N); [reflexivity | vm_compute; lia | reflexivity].
Defined.

Lemma user_profile_write_is_best_effort_witness :
  field (world (UserRegistration.handleSubmit Scenario.prompt
                  (Scenario.empty, Cases.signup "s3cret!" "s3cret!")))
    ("users", "uid-alice") "role" = Some "user" ∧
  db (world (UserRegistration.handleSubmit Scenario.store_down
               (Scenario.empty, Cases.signup "s3cret!" "s3cret!")))
    = db Scenario.empty ∧
  In OnRegister
    (trace (UserRegistration.handleSubmit Cases.store_slow
              (Scenario.empty, Cases.signup "s3cret!" "s3cret!"))).
Proof.
  pose proof (user_profile_write_is_best_effort Scenario.prompt Scenario.empty
                (Cases.signup "s3cret!" "s3cret!") 10%N eq_refl
                ltac:(vm_compute; lia) eq_refl eq_refl eq_refl)
    as (_ & _ & _ & Hin & _).
  pose proof (user_profile_write_is_best_effort Scenario.store_down Scenario.empty
                (Cases.signup "s3cret!" "s3cret!") 10%N eq_refl
                ltac:(vm_compute; lia) eq_refl eq_refl eq_refl)
    as (_ & _ & _ & _ & Hdown).
  pose proof (user_profile_write_is_best_effort Cases.store_slow Scenario.empty
                (Cases.signup "s3cret!" "s3cret!") 10%N eq_refl
                ltac:(vm_compute; lia) eq_refl eq_refl eq_refl)
    as (_ & Hon & _).
  split_and!; [| exact (Hdown "offline" 10%N eq_refl) | exact Hon].
  unfold field. rewrite (Hin 10%N eq_refl ltac:(lia)). reflexivity.
Defined.

Lemma user_flows_write_seven_fields_witness :
  field (world (UserRegistration.handleGoogleSignup Scenario.prompt
                  (Scenario.gina_banned, Scenario.user_form)))
    ("users", "uid-gina") "status" = Some "banned".
Proof.
  rewrite (proj2 (user_flows_write_seven_fields Scenario.prompt Scenario.gina_banned
                    Scenario.user_form ("users", "uid-gina") "status"
                    ltac:(compute_done))).
  vm_compute. reflexivity.
Defined.

Lemma google_signup_resets_role_witness :
  field Cases.gina_admin ("users", "uid-gina") "role" = Some "admin" ∧
  field (world (UserRegistration.handleGoogleSignup Scenario.prompt
                  (Cases.gina_admin, Scenario.user_form)))
    ("users", "uid-gina") "role" = Some "user".
Proof.
  split; [vm_compute; reflexivity|].
  apply (google_signup_resets_role Scenario.prompt Cases.gina_admin
           Scenario.user_form 10 10 eq_refl eq_refl). lia.
Defined.

Lemma registered_profile :
  db Scenario.registered !! ("users", "uid-alice") = Some Scenario.alice_profile.
Proof. vm_compute. reflexivity. Qed.

Lemma banned_alice_profile :
  db Scenario.alice_banned !! ("users", "uid-alice")
    = Some (<["status" := "banned"]> Scenario.alice_profile).
Proof. vm_compute. reflexivity. Qed.

Lemma alice_form_valid : valid_input Cases.alice_form.
Proof. vm_compute. repeat split; lia. Qed.

Lemma ban_changes_status_only_witness :
  db Scenario.registered !! ("users", "uid-alice") = Some Scenario.alice_profile ∧
  db (world (AdminManagement.handleExecute Scenario.prompt
               (Scenario.registered,
                Scenario.roster AdminManagement.ban "" (Some Cases.alice_row))))
    !! ("users", "uid-alice")
    = Some (<["status" := "banned"]> Scenario.alice_profile).
Proof.
  pose proof registered_profile as Hd.
  split; [exact Hd|].
  destruct (proj1 (ban_changes_status_only Scenario.prompt Scenario.registered
                     (Scenario.roster AdminManagement.ban "" (Some Cases.alice_row))
                     Cases.alice_row Scenario.alice_profile "uid-alice" 10
                     eq_refl eq_refl Hd eq_refl) eq_refl) as (Hdb & _).
  rewrite Hdb. apply lookup_insert_eq.
Defined.

Lemma roster_failures_are_surfaced_witness :
  AdminManagement.errorMsg
    (component (AdminManagement.handleExecute Cases.updates_down
                  (Scenario.registered,
                   Scenario.roster AdminManagement.ban "" (Some Cases.alice_row))))
    = "Database Error: Could not ban user." ∧
  AdminManagement.errorMsg
    (component (AdminManagement.handleExecute Scenario.prompt
                  (Scenario.registered,
                   Scenario.roster AdminManagement.unban "" None)))
    = "Database Error: Could not unban user." ∧
  AdminManagement.errorMsg
    (component (AdminManagement.handleExecute Scenario.store_down
                  (Scenario.registered,
                   Scenario.roster AdminManagement.update_reg_key "ROTATED" None)))
    = "Database Error: Could not update key.".
Proof.
  split_and!.
  - destruct (proj1 (roster_failures_are_surfaced Cases.updates_down
                       Scenario.registered
                       (Scenario.roster AdminManagement.ban "" (Some Cases.alice_row)))
                AdminManagement.ban eq_refl) as (_ & _ & _ & _ & H);
      [discriminate | vm_compute; discriminate | | exact H].
    right. right. by exists "offline", 10%N.
  - destruct (proj1 (roster_failures_are_surfaced Scenario.prompt
                       Scenario.registered
                       (Scenario.roster AdminManagement.unban "" None))
                AdminManagement.unban eq_refl) as (_ & _ & _ & _ & H);
      [discriminate | vm_compute; discriminate | | exact H].
    left. reflexivity.
  - destruct (proj2 (roster_failures_are_surfaced Scenario.store_down
                       Scenario.registered
                       (Scenario.roster AdminManagement.update_reg_key "ROTATED" None))
                "offline" 10%N eq_refl) as (_ & _ & _ & _ & H);
      [vm_compute; lia | reflexivity | exact H].
Defined.

Lemma ban_unban_round_trip_witness :
  db (world
        (AdminManagement.handleExecute Scenario.prompt
           (world
              (AdminManagement.openModal AdminManagement.unban (Some Cases.alice_row)
                 (world (AdminManagement.handleExecute Scenario.prompt
                           (Scenario.registered,
                            Scenario.roster AdminManagement.ban ""
                              (Some Cases.alice_row))),
                  component (AdminManagement.handleExecute Scenario.prompt
                               (Scenario.registered,
                                Scenario.roster AdminManagement.ban ""
                                  (Some Cases.alice_row))))),
            component
              (AdminManagement.openModal AdminManagement.unban (Some Cases.alice_row)
                 (world (AdminManagement.handleExecute Scenario.prompt
                           (Scenario.registered,
                            Scenario.roster AdminManagement.ban ""
                              (Some Cases.alice_row))),
                  component (AdminManagement.handleExecute Scenario.prompt
                               (Scenario.registered,
                                Scenario.roster AdminManagement.ban ""
                                  (Some Cases.alice_row))))))))
    = db Scenario.registered.
Proof.
  pose proof registered_profile as Hd.
  destruct (ban_unban_round_trip Scenario.prompt Scenario.prompt Scenario.registered
              (Scenario.roster AdminManagement.ban "" (Some Cases.alice_row))
              Cases.alice_row Scenario.alice_profile "uid-alice" 10 10
              eq_refl eq_refl eq_refl Hd eq_refl eq_refl) as (_ & H & _).
  apply H. reflexivity.
Defined.

Lemma ban_is_idempotent_witness :
  db (world
        (AdminManagement.handleExecute Scenario.prompt
           (world
              (AdminManagement.openModal AdminManagement.ban (Some Cases.alice_row)
                 (world (AdminManagement.handleExecute Scenario.prompt
                           (Scenario.registered,
                            Scenario.roster AdminManagement.ban ""
                              (Some Cases.alice_row))),
                  component (AdminManagement.handleExecute Scenario.prompt
                               (Scenario.registered,
                                Scenario.roster AdminManagement.ban ""
                                  (Some Cases.alice_row))))),
            component
              (AdminManagement.openModal AdminManagement.ban (Some Cases.alice_row)
                 (world (AdminManagement.handleExecute Scenario.prompt
                           (Scenario.registered,
                            Scenario.roster AdminManagement.ban ""
                              (Some Cases.alice_row))),
                  component (AdminManagement.handleExecute Scenario.prompt
                               (Scenario.registered,
                                Scenario.roster AdminManagement.ban ""
                                  (Some Cases.alice_row))))))))
    = db Scenario.alice_banned.
Proof.
  pose proof registered_profile as Hd.
  destruct (ban_is_idempotent Scenario.prompt Scenario.prompt Scenario.registered
              (Scenario.roster AdminManagement.ban "" (Some Cases.alice_row))
              Cases.alice_row Scenario.alice_profile "uid-alice" 10 10
              eq_refl eq_refl eq_refl Hd eq_refl eq_refl) as (_ & H & _).
  exact H.
Defined.

Lemma ban_gates_recovery_witness :
  AdminRegistration.terminal
    (AdminRegistration.handleSubmit Scenario.prompt
       (world (AdminManagement.handleExecute Scenario.prompt
                 (Scenario.registered,
                  Scenario.roster AdminManagement.ban "" (Some Cases.alice_row))),
        Cases.alice_form)) = Denied ∧
  AdminRegistration.terminal
    (AdminRegistration.handleSubmit Scenario.prompt
       (world (AdminManagement.handleExecute Scenario.prompt
                 (Scenario.alice_banned,
                  Scenario.roster AdminManagement.unban "" (Some Cases.alice_row))),
        Cases.alice_form)) = Restored.
Proof.
  pose proof alice_form_valid as Hv.
  pose proof registered_profile as Hd.
  pose proof banned_alice_profile as Hd'.
  split.
  - apply (proj1 (ban_gates_recovery Scenario.prompt Scenario.prompt
                    Scenario.registered
                    (Scenario.roster AdminManagement.ban "" (Some Cases.alice_row))
                    Cases.alice_form Scenario.alice_account Cases.alice_row
                    Scenario.alice_profile 10 10 10 10 10 10
                    eq_refl eq_refl Hd eq_refl Hv eq_refl eq_refl
                    eq_refl eq_refl eq_refl eq_refl eq_refl) eq_refl).
  - apply (proj2 (ban_gates_recovery Scenario.prompt Scenario.prompt
                    Scenario.alice_banned
                    (Scenario.roster AdminManagement.unban "" (Some Cases.alice_row))
                    Cases.alice_form Scenario.alice_account Cases.alice_row
                    (<["status" := "banned"]> Scenario.alice_profile)
                    10 10 10 10 10 10
                    eq_refl eq_refl Hd' eq_refl Hv eq_refl eq_refl
                    eq_refl eq_refl eq_refl eq_refl eq_refl) eq_refl).
Defined.

Lemma registration_is_idempotent_witness :
  AdminRegistration.terminal
    (AdminRegistration.handleSubmit Scenario.prompt (Scenario.empty, Cases.alice_form))
    = Created ∧
  AdminRegistration.terminal
    (AdminRegistration.handleSubmit Scenario.prompt
       (world (AdminRegistration.handleSubmit Scenario.prompt
                 (Scenario.empty, Cases.alice_form)),
        Cases.alice_form)) = Restored ∧
  accounts
    (world (AdminRegistration.handleSubmit Scenario.prompt
              (world (AdminRegistration.handleSubmit Scenario.prompt
                        (Scenario.empty, Cases.alice_form)),
               Cases.alice_form)))
    = [Scenario.alice_account].
Proof.
  destruct (registration_is_idempotent Scenario.prompt Scenario.prompt
              Scenario.empty Cases.alice_form 10 10 10 10 10 10
              alice_form_valid eq_refl eq_refl eq_refl eq_refl
              eq_refl eq_refl eq_refl eq_refl) as (H1 & H2 & H3 & _).
  split_and!; [exact H1 | exact H2 |].
  rewrite H3. reflexivity.
Defined.

Lemma registration_writes_own_profile_only_witness :
  db (world (AdminRegistration.handleSubmit Scenario.prompt
               (Scenario.config_without_key, Cases.alice_form)))
    !! admin_config
    = db Scenario.config_without_key !! admin_config.
Proof.
  apply (proj1 (registration_writes_own_profile_only Scenario.prompt
                  Scenario.config_without_key Cases.alice_form admin_config)).
  - intros a Ha. vm_compute in Ha. discriminate.
  - intros _. vm_compute. discriminate.
Defined.

Lemma processing_flag_is_released_witness :
  AdminRegistration.loading
    (component (AdminRegistration.handleSubmit Scenario.store_silent
                  (Scenario.empty, Cases.alice_form))) = true ∧
  AdminRegistration.loading
    (component (AdminRegistration.handleSubmit Scenario.store_down
                  (Scenario.empty, Cases.alice_form))) ≠ true.
Proof.
  destruct (processing_flag_is_released Scenario.store_silent Scenario.empty
              Cases.alice_form eq_refl) as (_ & Hs & _).
  destruct (processing_flag_is_released Scenario.store_down Scenario.empty
              Cases.alice_form eq_refl) as (_ & Hd & _).
  split.
  - apply Hs. vm_compute. reflexivity.
  - intros H. apply Hd in H. vm_compute in H. discriminate.
Defined.

Lemma fetched_code_is_never_empty_witness :
  AdminRegistration.systemAdminCode
    (component (AdminRegistration.fetchAdminCode Cases.reads_down
                  (Scenario.empty, Cases.unfetched ""))) = Some "ADMIN2025" ∧
  AdminRegistration.terminal
    (AdminRegistration.handleSubmit Scenario.prompt
       (world (AdminRegistration.fetchAdminCode Cases.reads_down
                 (Scenario.empty, Cases.unfetched "")),
        component (AdminRegistration.fetchAdminCode Cases.reads_down
                     (Scenario.empty, Cases.unfetched "")))) = CodeMismatch.
Proof.
  destruct (fetched_code_is_never_empty Cases.reads_down Scenario.prompt
              Scenario.empty (Cases.unfetched ""))
    as (_ & _ & _ & _ & _ & H); [vm_compute; discriminate|].
  split; [vm_compute; reflexivity|].
  apply (proj1 (H eq_refl)).
Defined.

Lemma nothing_happens_while_the_code_loads_witness :
  result (AdminRegistration.fetchAdminCode Cases.reads_silent
            (Scenario.empty, Cases.unfetched "ADMIN2025")) = Diverge ∧
  trace (AdminRegistration.handleSubmit Scenario.prompt
           (Scenario.empty, Cases.unfetched "ADMIN2025")) = [] ∧
  trace (AdminRegistration.handleGoogleRegister Scenario.prompt
           (Scenario.empty, Cases.unfetched "ADMIN2025")) = [].
Proof.
  split_and!.
  - apply (proj1 (nothing_happens_while_the_code_loads Cases.reads_silent
                    Scenario.empty (Cases.unfetched "ADMIN2025"))). reflexivity.
  - destruct (proj2 (nothing_happens_while_the_code_loads Scenario.prompt
                       Scenario.empty (Cases.unfetched "ADMIN2025")) eq_refl)
      as (_ & H & _). exact H.
  - destruct (proj2 (nothing_happens_while_the_code_loads Scenario.prompt
                       Scenario.empty (Cases.unfetched "ADMIN2025")) eq_refl)
      as (_ & _ & _ & _ & H & _). exact H.
Defined.

Lemma federated_flow_is_gated_by_the_code_witness :
  trace (AdminRegistration.handleGoogleRegister Scenario.prompt
           (Scenario.empty, Scenario.admin_form "guess" "" "")) = [] ∧
  AdminRegistration.terminal
    (AdminRegistration.handleGoogleRegister Scenario.prompt
       (Scenario.empty, Scenario.admin_form "guess" "" "")) = CodeMismatch.
Proof.
  destruct (proj1 (federated_flow_is_gated_by_the_code Scenario.prompt
                     Scenario.empty (Scenario.admin_form "guess" "" "")) eq_refl)
    as (Ht & _ & Htr); [vm_compute; discriminate|].
  by split.
Defined.

Lemma recovery_store_failure_reported_as_wrong_password_witness :
  password_ok Scenario.alice_account "s3cret!" = true ∧
  AdminRegistration.terminal
    (AdminRegistration.handleSubmit Cases.reads_down
       (Scenario.registered, Cases.alice_form)) = IncorrectCredential ∧
  currentUser
    (world (AdminRegistration.handleSubmit Scenario.store_down
              (Scenario.registered, Cases.alice_form)))
    = Some Scenario.alice.
Proof.
  split_and!; [reflexivity | |].
  - apply (recovery_store_failure_reported_as_wrong_password Cases.reads_down
             Scenario.registered Cases.alice_form Scenario.alice_account 10 10
             alice_form_valid eq_refl eq_refl eq_refl eq_refl).
    left. by exists "offline", 10%N.
  - apply (recovery_store_failure_reported_as_wrong_password Scenario.store_down
             Scenario.registered Cases.alice_form Scenario.alice_account 10 10
             alice_form_valid eq_refl eq_refl eq_refl eq_refl).
    right. exists 10%N, "offline", 10%N. split_and!; [reflexivity | | reflexivity].
    vm_compute. reflexivity.
Defined.

Lemma google_register_profile_witness :
  db (world (AdminRegistration.handleGoogleRegister Scenario.prompt
               (Scenario.empty, Scenario.admin_form "ADMIN2025" "" "")))
    !! ("users", "uid-gina")
    = Some {["uid" := "uid-gina"; "email" := "gina@gmail.com"; "role" := "admin";
             "status" := "active"; "restoredAt" := "2023-11-14T22:13:20.020Z"]} ∧
  field (world (AdminRegistration.handleGoogleRegister Scenario.prompt
                  (Scenario.empty, Scenario.admin_form "ADMIN2025" "" "")))
    ("users", "uid-gina") "createdAt" = None.
Proof.
  destruct (google_register_profile Scenario.prompt Scenario.empty
              (Scenario.admin_form "ADMIN2025" "" "") 10 10 10)
    as (_ & _ & Hdb & Hc & _); try reflexivity.
  { vm_compute. by split. }
  split; [|by apply Hc].
  rewrite Hdb. vm_compute. reflexivity.
Defined.

Lemma orphan_identity_is_healed_witness :
  AdminRegistration.terminal
    (AdminRegistration.handleSubmit Scenario.store_down
       (Scenario.empty, Cases.alice_form)) = Failed "offline" ∧
  db (world (AdminRegistration.handleSubmit Scenario.store_down
               (Scenario.empty, Cases.alice_form))) = db Scenario.empty ∧
  AdminRegistration.terminal
    (AdminRegistration.handleSubmit Scenario.prompt
       (world (AdminRegistration.handleSubmit Scenario.store_down
                 (Scenario.empty, Cases.alice_form)),
        Cases.alice_form)) = Restored.
Proof.
  destruct (orphan_identity_is_healed Scenario.store_down Scenario.prompt
              Scenario.empty Cases.alice_form 10 "offline" 10 10 10 10 10
              alice_form_valid eq_refl eq_refl eq_refl eq_refl
              eq_refl eq_refl eq_refl eq_refl) as (H1 & _ & H2 & H3 & _).
  by split_and!.
Defined.

Lemma admin_success_means_profile_written_witness :
  field (world (AdminRegistration.handleSubmit Scenario.prompt
                  (Scenario.empty, Cases.alice_form)))
    ("users", "uid-alice") "status" = Some "active".
Proof.
  destruct (proj1 (admin_success_means_profile_written Scenario.prompt
                     Scenario.empty Cases.alice_form))
    as (u & Hu & _ & Hs); [left; vm_compute; reflexivity|].
  vm_compute in Hu. injection Hu as <-. exact Hs.
Defined.

Lemma roster_lists_exactly_the_admins_witness :
  Scenario.alice_profile ∪ {["id" := "uid-alice"]}
    ∈ AdminManagement.admins
        (component (AdminManagement.fetchData Scenario.prompt
                      (Scenario.registered, AdminManagement.initial))).
Proof.
  destruct (roster_lists_exactly_the_admins Scenario.prompt Scenario.registered
              AdminManagement.initial 10 eq_refl) as (_ & _ & _ & H);
    [vm_compute; discriminate|].
  apply H. exists "uid-alice", Scenario.alice_profile.
  split_and!; [exact registered_profile | reflexivity | reflexivity].
Defined.

Lemma roster_fetch_failure_keeps_the_view_witness :
  AdminManagement.globalRegKey
    (component (AdminManagement.fetchData Cases.query_down
                  (Scenario.registered, AdminManagement.initial))) = "Loading..." ∧
  AdminManagement.loading
    (component (AdminManagement.fetchData Cases.query_down
                  (Scenario.registered, AdminManagement.initial))) = false.
Proof.
  destruct (proj1 (roster_fetch_failure_keeps_the_view Cases.query_down
                     Scenario.registered AdminManagement.initial)
              "offline" 10%N eq_refl) as (_ & _ & _ & Hk & Hl).
  by split.
Defined.

Lemma no_handler_deletes_a_document_witness :
  is_Some (db (world (AdminManagement.handleExecute Scenario.prompt
                        (Scenario.registered,
                         Scenario.roster AdminManagement.ban ""
                           (Some Cases.alice_row))))
             !! ("users", "uid-alice")).
Proof.
  apply (no_handler_deletes_a_document Scenario.prompt Scenario.registered
           ("users", "uid-alice")).
  rewrite registered_profile. by eexists.
Defined.

Lemma denied_means_signed_out_witness :
  currentUser (world (AdminRegistration.handleSubmit Scenario.prompt
                        (Scenario.alice_banned, Cases.alice_form))) = None.
Proof.
  apply (proj1 (denied_means_signed_out Scenario.prompt Scenario.alice_banned
                  Cases.alice_form)).
  vm_compute. reflexivity.
Defined.

Lemma user_flows_hang_only_on_auth_witness :
  result (UserRegistration.handleSubmit Scenario.store_silent
            (Scenario.empty, Cases.signup "s3cret!" "s3cret!")) ≠ Diverge ∧
  UserRegistration.loading
    (component (UserRegistration.handleSubmit Scenario.store_silent
                  (Scenario.empty, Cases.signup "s3cret!" "s3cret!"))) ≠ true.
Proof.
  destruct (user_flows_hang_only_on_auth Scenario.store_silent Scenario.empty
              (Cases.signup "s3cret!" "s3cret!") eq_refl)
    as (_ & Hd & Hl & _).
  assert (result (UserRegistration.handleSubmit Scenario.store_silent
                    (Scenario.empty, Cases.signup "s3cret!" "s3cret!")) ≠ Diverge)
    as Hn.
  { intros H. apply Hd in H as (_ & _ & H). vm_compute in H. discriminate. }
  split; [exact Hn|].
  intros H. by apply Hl in H.
Defined.

Lemma user_auth_failure_is_reported_witness :
  UserRegistration.error
    (component (UserRegistration.handleSubmit Cases.auth_down
                  (Scenario.empty, Cases.signup "s3cret!" "s3cret!")))
    = "Error: network" ∧
  UserRegistration.error
    (component (UserRegistration.handleGoogleSignup Cases.auth_down
                  (Scenario.empty, Cases.signup "s3cret!" "s3cret!")))
    = "Google sign-up failed: network".
Proof.
  destruct (user_auth_failure_is_reported Cases.auth_down Scenario.empty
              (Cases.signup "s3cret!" "s3cret!") "network" 10) as [Hs Hg].
  destruct (Hs eq_refl ltac:(vm_compute; lia) eq_refl) as (_ & He & _).
  destruct (Hg eq_refl) as (_ & He' & _).
  by split.
Defined.

Lemma admin_auth_failure_skips_recovery_witness :
  AdminRegistration.terminal
    (AdminRegistration.handleSubmit Cases.auth_down
       (Scenario.registered, Cases.alice_form)) = Failed "network" ∧
  trace (AdminRegistration.handleSubmit Cases.auth_down
           (Scenario.registered, Cases.alice_form))
    = [Remote (ReqCreateUser "alice@cvfms.lk")].
Proof.
  destruct (proj1 (admin_auth_failure_skips_recovery Cases.auth_down
                     Scenario.registered Cases.alice_form "network" 10)
              alice_form_valid eq_refl) as (_ & _ & _ & Ht).
  split; [vm_compute; reflexivity | exact Ht].
Defined.
